(** * TareaInteligente: resilient execution with bounded retries

    A shallow embedding of the three variants of the repository

    - [Clase]   : TareaInteligenteClase.js   (ES2022 class, then/catch)
    - [Literal] : TareaInteligenteLiteral.js (object literal, then/catch)
    - [Async]   : TareaInteligenteAsync.js   (closure, async/await)

    The JavaScript is single threaded; every promise chain of the source is
    a sequence of steps over one world, so an asynchronous computation is a
    function from the world before to the world after and the settlement of
    the promise.  The world records what an observer sees: the invocations
    of the wrapped operation, the console output, the timers and the calls
    of the success callback, in the order they happen. *)

From Stdlib Require Import ZArith List String Bool Lia DecimalString.
From Equations Require Import Equations.
From Equations.Prop Require Import Logic.
Import ListNotations.

Local Open Scope string_scope.
Local Open Scope Z_scope.

(* ===================================================================== *)
(** ** JavaScript values and the operators the source uses *)
(* ===================================================================== *)

Module Js.

(** The values a configuration field or a result takes in this model:
    undefined, null, booleans, integer numbers and NaN.  Fractional
    numbers, strings and objects are not represented as field values. *)
Inductive JsVal : Type :=
| JUndefined
| JNull
| JBool (b : bool)
| JNum (z : Z)
| JNaN.

(** ToBoolean. *)
Definition truthy (v : JsVal) : bool :=
  match v with
  | JUndefined | JNull | JNaN => false
  | JBool b => b
  | JNum z => negb (z =? 0)
  end.

(** [a || b]. *)
Definition js_or (a b : JsVal) : JsVal := if truthy a then a else b.

(** ToNumber, on the values of the model. *)
Inductive Numero : Type :=
| Fin (z : Z)
| NaN.

Definition to_number (v : JsVal) : Numero :=
  match v with
  | JUndefined | JNaN => NaN
  | JNull => Fin 0
  | JBool b => Fin (if b then 1 else 0)
  | JNum z => Fin z
  end.

(** [a < b]: false as soon as one side is NaN. *)
Definition js_lt (a b : JsVal) : bool :=
  match to_number a, to_number b with
  | Fin x, Fin y => x <? y
  | _, _ => false
  end.

(** Template literal rendering of an integer, [`${n}`]. *)
Definition texto (n : Z) : string := NilZero.string_of_int (Z.to_int n).

(** What a promise is rejected with, or what a call throws. *)
Inductive Fallo : Type :=
| ErrorJS (mensaje : string)          (* new Error(mensaje) *)
| TypeErrorJS (propiedad : string)    (* reading [propiedad] of undefined or null *)
| Lanzado (v : JsVal).                (* any other value *)

(** The settlement of a promise. *)
Inductive Promesa : Type :=
| Cumple (v : JsVal)
| Rechaza (e : Fallo).

(** A synchronous computation that may throw. *)
Inductive Exc (A : Type) : Type :=
| Ok (a : A)
| Lanza (e : Fallo).
Arguments Ok {A} a.
Arguments Lanza {A} e.

(** A variable that holds an object, or undefined, or null. *)
Inductive Ref (A : Type) : Type :=
| Indefinido
| Nulo
| Objeto (a : A).
Arguments Indefinido {A}.
Arguments Nulo {A}.
Arguments Objeto {A} a.

(** [o.p]: a TypeError when [o] is undefined or null. *)
Definition leer {A : Type} (o : Ref A) (propiedad : string) (p : A -> JsVal) : Exc JsVal :=
  match o with
  | Objeto a => Ok (p a)
  | Indefinido | Nulo => Lanza (TypeErrorJS propiedad)
  end.

(** The configuration object the caller writes.  A property that is not
    written reads as undefined. *)
Record Configuracion : Type := {
  reintentos : JsVal;
  demoraEntreIntentos : JsVal;
  modoSilencioso : JsVal
}.

(** [{}] *)
Definition vacia : Configuracion :=
  {| reintentos := JUndefined; demoraEntreIntentos := JUndefined; modoSilencioso := JUndefined |}.

(** The wrapped operation returns a promise; what the promise of the
    [i]-th invocation (counted from 0 over the life of the operation)
    settles to is all the retry logic sees of it. *)
Definition Operacion : Type := nat -> Promesa.

(** The success callback: [None] when the call returns, [Some e] when it
    throws [e]. *)
Definition Callback : Type := JsVal -> option Fallo.

(** What an observer sees. *)
Inductive Evento : Type :=
| EvInvoca (i : nat)                               (* the operation is called *)
| EvWarn (mensaje : string) (adjunto : option Fallo) (* console.warn *)
| EvEspera (ms : JsVal)                            (* setTimeout(resolve, ms) elapses *)
| EvDespues (resultado : JsVal)                    (* the success callback is called *)
| EvError (mensaje : string) (error : Fallo).      (* console.error *)

Record Mundo : Type := {
  llamadas : nat;          (* invocations of the operation so far *)
  traza : list Evento      (* oldest event first *)
}.

Definition inicial : Mundo := {| llamadas := 0; traza := [] |}.

Definition emitir (e : Evento) (m : Mundo) : Mundo :=
  {| llamadas := llamadas m; traza := traza m ++ [e] |}.

(** Calling the operation: the call is observed and counted. *)
Definition invocar (m : Mundo) : Mundo :=
  {| llamadas := S (llamadas m); traza := traza m ++ [EvInvoca (llamadas m)] |}.

(** An asynchronous computation over the mutable state [S]. *)
Definition Asinc (S : Type) : Type := S -> S * Promesa.

(** [p.then(f)] *)
Definition entonces {S : Type} (p : Asinc S) (f : JsVal -> Asinc S) : Asinc S :=
  fun s =>
    match p s with
    | (s1, Cumple v) => f v s1
    | (s1, Rechaza e) => (s1, Rechaza e)
    end.

(** [p.catch(h)] *)
Definition atrapar {S : Type} (p : Asinc S) (h : Fallo -> Asinc S) : Asinc S :=
  fun s =>
    match p s with
    | (s1, Cumple v) => (s1, Cumple v)
    | (s1, Rechaza e) => h e s1
    end.

(** The argument of the constructor, of [configurar] and of the factory
    function: [{ nombre, configuracion, ejecutar, despues }]. *)
Record Opciones : Type := {
  o_nombre : option string;
  o_configuracion : Ref Configuracion;
  o_ejecutar : Operacion;
  o_despues : option Callback
}.

(** [nombre || "TareaSinNombre"]: the empty string is falsy too. *)
Definition nombre_o (n : option string) : string :=
  match n with
  | Some "" | None => "TareaSinNombre"
  | Some s => s
  end.

(** [esperar(ms)]: the timer of [ms] milliseconds elapses. *)
Definition esperar (ms : JsVal) (m : Mundo) : Mundo := emitir (EvEspera ms) m.

(** [console.error(`Error en la tarea '${nombre}':`, error)] *)
Definition registro (nombre : string) (error : Fallo) : Evento :=
  EvError ("Error en la tarea '" ++ nombre ++ "':") error.

(** The error every variant builds when the attempts run out. *)
Definition agotado : Fallo := ErrorJS "Todos los intentos fallaron.".

(** Attempts still allowed after [intentos] failures when the bound is
    [maximo]: the variant of the retry loops. *)
Definition faltan (intentos : Z) (maximo : JsVal) : nat :=
  match to_number maximo with
  | Fin n => Z.to_nat (n - intentos)
  | NaN => 0%nat
  end.

End Js.

Import Js.

(* ===================================================================== *)
(** ** TareaInteligenteClase.js *)
(* ===================================================================== *)

Module Clase.

(** The object [#prepararConfiguracion] returns. *)
Record Config : Type := {
  maxIntentos : JsVal;
  demoraEntreIntentos : JsVal;
  silencio : JsVal
}.

Record Tarea : Type := {
  nombre : string;
  config : Config;
  ejecutar : Operacion;
  despues : option Callback
}.

Definition prepararConfiguracion (conf : Configuracion) : Config :=
  {| maxIntentos := js_or (reintentos conf) (JNum 3);
     demoraEntreIntentos := js_or (Js.demoraEntreIntentos conf) (JNum 1000);
     silencio := js_or (modoSilencioso conf) (JBool false) |}.

(** [configuracion || {}] *)
Definition configuracion_o (c : Ref Configuracion) : Configuracion :=
  match c with
  | Objeto conf => conf
  | Indefinido | Nulo => vacia
  end.

Definition constructor (o : Opciones) : Exc Tarea :=
  Ok {| nombre := nombre_o (o_nombre o);
        config := prepararConfiguracion (configuracion_o (o_configuracion o));
        ejecutar := o_ejecutar o;
        despues := o_despues o |}.

(** [console.warn(`Intento ${intentos} fallido:`, error)] *)
Definition aviso (intentos : Z) (error : Fallo) : Evento :=
  EvWarn ("Intento " ++ texto intentos ++ " fallido:") (Some error).

Definition avisar (conf : Config) (intentos : Z) (error : Fallo) (m : Mundo) : Mundo :=
  if negb (truthy (silencio conf)) then emitir (aviso intentos error) m else m.

(** The closure [intentar] of [#ejecutarConResiliencia]; [intentos] is the
    variable it captures, with the value it has when [intentar] is entered. *)
Equations? intentar (funcion : Operacion) (conf : Config) (intentos : Z) (m : Mundo)
  : Mundo * Promesa by wf (faltan intentos (maxIntentos conf)) lt :=
intentar funcion conf intentos m with funcion (llamadas m) => {
  | Cumple v => (invocar m, Cumple v)
  | Rechaza error with inspect (js_lt (JNum (intentos + 1)) (maxIntentos conf)) => {
    | exist _ true _ =>
        intentar funcion conf (intentos + 1)
          (esperar (demoraEntreIntentos conf)
             (avisar conf (intentos + 1) error (invocar m)))
    | exist _ false _ =>
        (avisar conf (intentos + 1) error (invocar m), Rechaza agotado)
    }
  }.
Proof.
  revert e; unfold js_lt, faltan; simpl.
  destruct (to_number (maxIntentos conf)) as [n|]; [|discriminate].
  intros H; apply Z.ltb_lt in H; lia.
Qed.

Definition ejecutarConResiliencia (funcion : Operacion) (conf : Config) : Asinc Mundo :=
  intentar funcion conf 0.

(** The handler of [.then] in [iniciar]. *)
Definition alCumplir (t : Tarea) (resultado : JsVal) : Asinc Mundo :=
  fun m =>
    match despues t with
    | Some f =>
        match f resultado with
        | None => (emitir (EvDespues resultado) m, Cumple resultado)
        | Some e => (emitir (EvDespues resultado) m, Rechaza e)
        end
    | None => (m, Cumple resultado)
    end.

(** The handler of [.catch] in [iniciar]. *)
Definition alFallar (t : Tarea) (error : Fallo) : Asinc Mundo :=
  fun m => (emitir (registro (nombre t) error) m, Rechaza error).

Definition iniciar (t : Tarea) : Asinc Mundo :=
  atrapar
    (entonces (ejecutarConResiliencia (ejecutar t) (config t)) (alCumplir t))
    (alFallar t).

End Clase.

(* ===================================================================== *)
(** ** TareaInteligenteLiteral.js *)
(* ===================================================================== *)

Module Literal.

(** The object [TareaInteligente] once [configurar] has run.  [despues] is
    [None] when the caller gave no callback: the object then holds
    [function() {}], whose call nobody observes. *)
Record Instancia : Type := {
  nombre : string;
  configuracion : Configuracion;
  ejecutar : Operacion;
  despues : option Callback;
  _intentosRealizados : Z
}.

(** [self._intentosRealizados = n] *)
Definition con_intentos (n : Z) (self : Instancia) : Instancia :=
  {| nombre := nombre self;
     configuracion := configuracion self;
     ejecutar := ejecutar self;
     despues := despues self;
     _intentosRealizados := n |}.

(** [configurar] reads [config.configuracion.reintentos] without a guard
    and leaves [_intentosRealizados] as it finds it.  When the read throws,
    [nombre] alone has been assigned; the model follows the object no
    further then. *)
Definition configurar (config : Opciones) (intentosAntes : Z) : Exc Instancia :=
  match o_configuracion config with
  | Objeto c =>
      Ok {| nombre := nombre_o (o_nombre config);
            configuracion :=
              {| reintentos := js_or (reintentos c) (JNum 3);
                 demoraEntreIntentos := js_or (demoraEntreIntentos c) (JNum 1000);
                 modoSilencioso := js_or (modoSilencioso c) (JBool false) |};
            ejecutar := o_ejecutar config;
            despues := o_despues config;
            _intentosRealizados := intentosAntes |}
  | Indefinido | Nulo => Lanza (TypeErrorJS "reintentos")
  end.

(** [console.warn(`Intento ${n} fallido en '${nombre}'.`)] *)
Definition aviso (self : Instancia) : Evento :=
  EvWarn ("Intento " ++ texto (_intentosRealizados self) ++ " fallido en '"
            ++ nombre self ++ "'.") None.

Definition avisar (self : Instancia) (m : Mundo) : Mundo :=
  if negb (truthy (modoSilencioso (configuracion self))) then emitir (aviso self) m else m.

Equations? _intentarEjecucion (self : Instancia) (m : Mundo)
  : (Instancia * Mundo) * Promesa
  by wf (faltan (_intentosRealizados self) (reintentos (configuracion self))) lt :=
_intentarEjecucion self m with ejecutar self (llamadas m) => {
  | Cumple v => ((self, invocar m), Cumple v)
  | Rechaza error
    with inspect (js_lt (JNum (_intentosRealizados self + 1))
                        (reintentos (configuracion self))) => {
    | exist _ true _ =>
        _intentarEjecucion
          (con_intentos (_intentosRealizados self + 1) self)
          (esperar (demoraEntreIntentos (configuracion self))
             (avisar (con_intentos (_intentosRealizados self + 1) self) (invocar m)))
    | exist _ false _ =>
        ((con_intentos (_intentosRealizados self + 1) self,
          avisar (con_intentos (_intentosRealizados self + 1) self) (invocar m)),
         Rechaza agotado)
    }
  }.
Proof.
  revert e; unfold js_lt, faltan; simpl.
  destruct (to_number (reintentos (configuracion self))) as [n|]; [|discriminate].
  intros H; apply Z.ltb_lt in H; lia.
Qed.

(** The handler of [.then] in [iniciar]. *)
Definition alCumplir (resultado : JsVal) : Asinc (Instancia * Mundo) :=
  fun '(self, m) =>
    match despues self with
    | Some f =>
        match f resultado with
        | None => ((self, emitir (EvDespues resultado) m), Cumple resultado)
        | Some e => ((self, emitir (EvDespues resultado) m), Rechaza e)
        end
    | None => ((self, m), Cumple resultado)
    end.

(** The handler of [.catch] in [iniciar]. *)
Definition alFallar (error : Fallo) : Asinc (Instancia * Mundo) :=
  fun '(self, m) => ((self, emitir (registro (nombre self) error) m), Rechaza error).

Definition iniciar : Asinc (Instancia * Mundo) :=
  fun '(self, m) =>
    atrapar
      (entonces (fun '(self0, m0) => _intentarEjecucion self0 m0) alCumplir)
      alFallar
      (con_intentos 0 self, m).

End Literal.

(* ===================================================================== *)
(** ** TareaInteligenteAsync.js *)
(* ===================================================================== *)

Module Async.

(** [{ ...config, maxIntentos, silencio }]: the properties of the caller's
    object and the two that [prepararConfiguracion] adds. *)
Record Config : Type := {
  reintentos : JsVal;
  demoraEntreIntentos : JsVal;
  modoSilencioso : JsVal;
  maxIntentos : JsVal;
  silencio : JsVal
}.

(** The spread of undefined or null copies nothing; the read of
    [config.reintentos] that follows throws. *)
Definition prepararConfiguracion (config : Ref Configuracion) : Exc Config :=
  match leer config "reintentos" Js.reintentos with
  | Lanza e => Lanza e
  | Ok r =>
      match leer config "modoSilencioso" Js.modoSilencioso with
      | Lanza e => Lanza e
      | Ok s =>
          Ok {| reintentos := r;
                demoraEntreIntentos :=
                  match config with
                  | Objeto c => Js.demoraEntreIntentos c
                  | Indefinido | Nulo => JUndefined
                  end;
                modoSilencioso := s;
                maxIntentos := js_or r (JNum 3);
                silencio := js_or s (JBool false) |}
      end
  end.

(** [console.warn(`Intento ${intentos} fallido.`)] *)
Definition aviso (intentos : Z) : Evento :=
  EvWarn ("Intento " ++ texto intentos ++ " fallido.") None.

Definition avisar (config : Config) (intentos : Z) (m : Mundo) : Mundo :=
  if negb (truthy (silencio config)) then emitir (aviso intentos) m else m.

(** The [while] loop of [ejecutarConResiliencia], entered with the local
    variable at [intentos]. *)
Equations? bucle (funcion : Operacion) (config : Config) (intentos : Z) (m : Mundo)
  : Mundo * Promesa by wf (faltan intentos (maxIntentos config)) lt :=
bucle funcion config intentos m
  with inspect (js_lt (JNum intentos) (maxIntentos config)) => {
  | exist _ false _ => (m, Rechaza agotado)
  | exist _ true _ with funcion (llamadas m) => {
    | Cumple v => (invocar m, Cumple v)
    | Rechaza _ =>
        bucle funcion config (intentos + 1)
          (esperar (js_or (demoraEntreIntentos config) (JNum 1000))
             (avisar config (intentos + 1) (invocar m)))
    }
  }.
Proof.
  revert e; unfold js_lt, faltan; simpl.
  destruct (to_number (maxIntentos config)) as [n|]; [|discriminate].
  intros H; apply Z.ltb_lt in H; lia.
Qed.

Definition ejecutarConResiliencia (funcion : Operacion) (config : Config) : Asinc Mundo :=
  bucle funcion config 0.

(** [`${nombre}`] when [nombre] may be undefined. *)
Definition texto_nombre (nombre : option string) : string :=
  match nombre with
  | Some s => s
  | None => "undefined"
  end.

Definition logError (error : Fallo) (nombreTarea : option string) (m : Mundo) : Mundo :=
  emitir (registro (texto_nombre nombreTarea) error) m.

(** [iniciar] of the task made from the options [o].  The function has no
    [return]: its promise is fulfilled with undefined whenever the body
    runs to its end, and the [catch] block ends normally. *)
Definition iniciar (o : Opciones) : Asinc Mundo :=
  fun m =>
    match prepararConfiguracion (o_configuracion o) with
    | Lanza e => (m, Rechaza e)
    | Ok config =>
        match ejecutarConResiliencia (o_ejecutar o) config m with
        | (m1, Cumple resultado) =>
            match o_despues o with
            | Some f =>
                match f resultado with
                | None => (emitir (EvDespues resultado) m1, Cumple JUndefined)
                | Some e =>
                    (logError e (o_nombre o) (emitir (EvDespues resultado) m1),
                     Cumple JUndefined)
                end
            | None => (m1, Cumple JUndefined)
            end
        | (m1, Rechaza error) => (logError error (o_nombre o) m1, Cumple JUndefined)
        end
    end.

End Async.

(* ===================================================================== *)
(** ** Reading a trace *)
(* ===================================================================== *)

Module Traza.

Definition es_invoca (e : Evento) : bool :=
  match e with EvInvoca _ => true | _ => false end.

(** How many times the operation was called. *)
Definition invocaciones (t : list Evento) : nat := List.length (filter es_invoca t).

(** The calls whose promise was rejected. *)
Definition es_fallida (f : Operacion) (e : Evento) : bool :=
  match e with
  | EvInvoca i => match f i with Rechaza _ => true | Cumple _ => false end
  | _ => false
  end.

Definition fallidas (f : Operacion) (t : list Evento) : nat :=
  List.length (filter (es_fallida f) t).

(** The delays, in order. *)
Definition esperas (t : list Evento) : list JsVal :=
  flat_map (fun e => match e with EvEspera ms => [ms] | _ => [] end) t.

(** The messages of [console.warn], in order. *)
Definition avisos (t : list Evento) : list string :=
  flat_map (fun e => match e with EvWarn s _ => [s] | _ => [] end) t.

(** What [console.error] printed, in order. *)
Definition errores (t : list Evento) : list (string * Fallo) :=
  flat_map (fun e => match e with EvError s x => [(s, x)] | _ => [] end) t.

(** What the success callback was called with, in order. *)
Definition entregas (t : list Evento) : list JsVal :=
  flat_map (fun e => match e with EvDespues v => [v] | _ => [] end) t.

(** Attempts and pauses only: the console and the callback left out. *)
Inductive Paso : Type :=
| Intento
| Pausa (ms : JsVal).

Definition esqueleto (t : list Evento) : list Paso :=
  flat_map (fun e => match e with
                     | EvInvoca _ => [Intento]
                     | EvEspera ms => [Pausa ms]
                     | _ => []
                     end) t.

(** [n] attempts with a pause of [d] between one and the next, and none
    before the first or after the last. *)
Fixpoint alternado (d : JsVal) (n : nat) : list Paso :=
  match n with
  | O => []
  | S O => [Intento]
  | S n' => Intento :: Pausa d :: alternado d n'
  end.

(** [n] attempts, each followed by a pause of [d], the last one too. *)
Fixpoint con_pausa_final (d : JsVal) (n : nat) : list Paso :=
  match n with
  | O => []
  | S n' => Intento :: Pausa d :: con_pausa_final d n'
  end.


(** What the [i]-th invocation was rejected with. *)
Definition razon (f : Operacion) (i : nat) : Fallo :=
  match f i with
  | Rechaza e => e
  | Cumple _ => agotado
  end.

(** [k] failed attempts in a row from invocation [l] on, the counter at
    [i] before the first: each is a call, the warning [W] of the variant
    (nothing in silent mode) and a pause of [d]. *)
Fixpoint fallidos (W : Z -> Fallo -> list Evento) (d : JsVal) (f : Operacion)
  (l : nat) (i : Z) (k : nat) : list Evento :=
  match k with
  | O => []
  | S k' =>
      EvInvoca l :: W (i + 1) (razon f l) ++ EvEspera d :: fallidos W d f (S l) (i + 1) k'
  end.

(** The numbers [i+1 .. i+k]. *)
Fixpoint desde (i : Z) (k : nat) : list Z :=
  match k with
  | O => []
  | S k' => (i + 1) :: desde (i + 1) k'
  end.

End Traza.

Import Traza.

(** Which invocations of the operation a trace holds, in order. *)
Definition indices (t : list Evento) : list nat :=
  flat_map (fun e => match e with EvInvoca i => [i] | _ => [] end) t.

(** The operation is rejected at every invocation. *)
Definition falla_siempre (f : Operacion) : Prop :=
  forall i : nat, exists e : Fallo, f i = Rechaza e.

(** From invocation [l] on the operation is rejected [k] times, then
    fulfilled with [v]. *)
Definition acierta_tras (f : Operacion) (l k : nat) (v : JsVal) : Prop :=
  (forall j : nat, (j < k)%nat -> exists e : Fallo, f (l + j)%nat = Rechaza e) /\
  f (l + k)%nat = Cumple v.

(** The events of a run that took the world from [m] to [m']. *)
Definition nuevos (m m' : Mundo) (t : list Evento) : Prop :=
  traza m' = (traza m ++ t)%list.

(** A run from [m] to [m'] that called the operation [n] times, at the
    invocations [llamadas m], [llamadas m + 1], ... in order, with
    [1 <= n <= N], every one of them but the last a failed one. *)
Definition a_lo_sumo (f : Operacion) (N : Z) (m m' : Mundo) : Prop :=
  exists (tr : list Evento) (n : nat),
    nuevos m m' tr /\
    indices tr = seq (llamadas m) n /\
    invocaciones tr = n /\
    (1 <= n)%nat /\ Z.of_nat n <= N /\
    forall j : nat, (j < n - 1)%nat -> exists e, f (llamadas m + j)%nat = Rechaza e.

(** The pause every variant takes for the caller's configuration [c]. *)
Definition demora_de (c : Configuracion) : JsVal :=
  js_or (demoraEntreIntentos c) (JNum 1000).

(** A run that made [N] attempts with [N - 1] pauses of [d], each between
    one failed attempt and the next, and ended in the exhaustion failure. *)
Definition reintenta_y_agota (d : JsVal) (N : Z) (m : Mundo) (r : Mundo * Promesa) : Prop :=
  exists tr,
    nuevos m (fst r) tr /\
    invocaciones tr = Z.to_nat N /\
    esperas tr = repeat d (Z.to_nat (N - 1)) /\
    esqueleto tr = alternado d (Z.to_nat N) /\
    snd r = Rechaza agotado.

(** A run that called the operation [k] times, handed [v] to the success
    callback once and reported no failure: nothing on [console.error] and
    a fulfilled promise. *)
Definition acierta_sin_fallo (k : nat) (v : JsVal) (m : Mundo) (r : Mundo * Promesa) : Prop :=
  exists tr,
    nuevos m (fst r) tr /\
    invocaciones tr = k /\
    entregas tr = [v] /\
    errores tr = [] /\
    exists w, snd r = Cumple w.

(** A run that called the operation [k] times and handed [v] to the
    success callback [g] once; and, when [g] returns on [v], reported no
    failure. *)
Definition intento_k_entregado (g : Callback) (k : nat) (v : JsVal) (m : Mundo)
  (r : Mundo * Promesa) : Prop :=
  exists tr,
    nuevos m (fst r) tr /\
    invocaciones tr = k /\
    entregas tr = [v] /\
    (g v = None -> errores tr = [] /\ exists w, snd r = Cumple w).

(** A run that ended by calling the callback, when there is one, with [v]
    and then settled with [p]. *)
Definition entrega_y_termina (g : option Callback) (v : JsVal) (p : Promesa)
  (m : Mundo) (r : Mundo * Promesa) : Prop :=
  exists cuerpo,
    nuevos m (fst r)
      (cuerpo ++ match g with Some _ => [EvDespues v] | None => [] end)%list /\
    entregas cuerpo = [] /\
    snd r = p.

(** A run in which the operation succeeded at call [k + 1], the callback
    was called with [v], the operation was not called again and the
    promise settled with [p]. *)
Definition tras_el_callback (k : nat) (v : JsVal) (p : Promesa)
  (m : Mundo) (r : Mundo * Promesa) : Prop :=
  exists tr,
    nuevos m (fst r) tr /\
    invocaciones tr = S k /\
    entregas tr = [v] /\
    llamadas (fst r) = S (llamadas m + k) /\
    snd r = p.

(** The claim that normalisation always leaves a number of attempts of at
    least one. *)
Definition al_menos_un_intento (conf : Configuracion) : Prop :=
  exists n : Z,
    to_number (Clase.maxIntentos (Clase.prepararConfiguracion conf)) = Fin n /\ 1 <= n.

(** The claim that the terminal failure carries the name of the task and
    the number of attempts: both can be read off the value [iniciar]
    rejects with. *)
Definition lleva_nombre_e_intentos : Prop :=
  exists lee : Fallo -> string * Z,
    forall (t : Clase.Tarea) (N : Z) (m : Mundo) (e : Fallo),
      Clase.maxIntentos (Clase.config t) = JNum N -> 1 <= N ->
      falla_siempre (Clase.ejecutar t) ->
      snd (Clase.iniciar t m) = Rechaza e ->
      lee e = (Clase.nombre t, N).

(** The claim that the caller gets the result of the operation or the
    exhaustion failure, and nothing else. *)
Definition resultado_o_agotado (f : Operacion) (r : Mundo * Promesa) : Prop :=
  (exists v, snd r = Cumple v /\ exists i, f i = Cumple v) \/
  snd r = Rechaza agotado.

(** What the caller of the class and of the literal object gets: the
    result of the last call of the operation; or the exhaustion failure,
    every call of the run having failed; or what the callback threw when
    it was given the result. *)
Definition desenlace (f : Operacion) (g : option Callback) (m : Mundo)
  (r : Mundo * Promesa) : Prop :=
  (exists v,
     snd r = Cumple v /\ f (pred (llamadas (fst r))) = Cumple v) \/
  (snd r = Rechaza agotado /\
   forall j : nat, (llamadas m <= j < llamadas (fst r))%nat -> exists e, f j = Rechaza e) \/
  (exists v h e,
     f (pred (llamadas (fst r))) = Cumple v /\ g = Some h /\ h v = Some e /\
     snd r = Rechaza e).


(** Inputs the examples run on. *)
Module Ejemplos.

Definition siempre_rechaza : Operacion := fun _ => Rechaza (Lanzado (JNum 503)).

Definition responde (v : JsVal) : Operacion := fun _ => Cumple v.

Definition falla_primero : Operacion :=
  fun i => match i with
           | O => Rechaza (Lanzado (JNum 503))
           | S _ => Cumple (JNum 42)
           end.

(** The configuration of the usage example of the repository. *)
Definition productos : Configuracion :=
  {| reintentos := JNum 3; demoraEntreIntentos := JNum 1500; modoSilencioso := JBool false |}.

Definition negativo : Configuracion :=
  {| reintentos := JNum (-1); demoraEntreIntentos := JNum 1500; modoSilencioso := JBool false |}.

Definition dos_intentos : Configuracion :=
  {| reintentos := JNum 2; demoraEntreIntentos := JNum 1500; modoSilencioso := JBool true |}.

Definition un_intento : Configuracion :=
  {| reintentos := JNum 1; demoraEntreIntentos := JNum 1500; modoSilencioso := JBool false |}.

Definition opciones (c : Configuracion) (f : Operacion) (g : option Callback) : Opciones :=
  {| o_nombre := Some "Cargar datos de productos";
     o_configuracion := Objeto c;
     o_ejecutar := f;
     o_despues := g |}.

Definition otras (c : Configuracion) (f : Operacion) : Opciones :=
  {| o_nombre := Some "Otra tarea";
     o_configuracion := Objeto c;
     o_ejecutar := f;
     o_despues := None |}.

Definition callback_bueno : Callback := fun _ => None.

Definition callback_roto : Callback := fun _ => Some (Lanzado JNull).

(** The task of the class and the object literal for given options. *)
Definition tarea (o : Opciones) : Clase.Tarea :=
  {| Clase.nombre := nombre_o (o_nombre o);
     Clase.config := Clase.prepararConfiguracion (Clase.configuracion_o (o_configuracion o));
     Clase.ejecutar := o_ejecutar o;
     Clase.despues := o_despues o |}.

Definition objeto (c : Configuracion) (o : Opciones) : Literal.Instancia :=
  {| Literal.nombre := nombre_o (o_nombre o);
     Literal.configuracion :=
       {| reintentos := js_or (reintentos c) (JNum 3);
          demoraEntreIntentos := js_or (demoraEntreIntentos c) (JNum 1000);
          modoSilencioso := js_or (modoSilencioso c) (JBool false) |};
     Literal.ejecutar := o_ejecutar o;
     Literal.despues := o_despues o;
     Literal._intentosRealizados := 0 |}.

End Ejemplos.

(** More inputs: a task with no name, a delay of 0, and an object literal
    left with its counter at 3 by an earlier run. *)
Module Casos.

Definition anonima (c : Configuracion) (f : Operacion) : Opciones :=
  {| o_nombre := None;
     o_configuracion := Objeto c;
     o_ejecutar := f;
     o_despues := None |}.

Definition sin_demora : Configuracion :=
  {| reintentos := JNum 2; demoraEntreIntentos := JNum 0; modoSilencioso := JBool false |}.

Definition gastado : Literal.Instancia :=
  Literal.con_intentos 3
    (Ejemplos.objeto Ejemplos.productos
       (Ejemplos.opciones Ejemplos.productos Ejemplos.siempre_rechaza None)).

End Casos.

(** What [iniciar] adds once the retry loop has settled with [p]: the call
    of the callback and the line of [console.error], the same in the three
    variants. *)
Definition epilogo (nombre : string) (g : option Callback) (p : Promesa) : list Evento :=
  match p with
  | Cumple v =>
      match g with
      | Some h =>
          EvDespues v :: match h v with
                         | Some e => [registro nombre e]
                         | None => []
                         end
      | None => []
      end
  | Rechaza e => [registro nombre e]
  end.

(** What the promise of [iniciar] settles to in the class and in the
    literal object. *)
Definition salida (g : option Callback) (p : Promesa) : Promesa :=
  match p with
  | Cumple v =>
      match g with
      | Some h => match h v with Some e => Rechaza e | None => Cumple v end
      | None => Cumple v
      end
  | Rechaza e => Rechaza e
  end.

(** What each variant adds to the trace when it warns, and the names the
    lemmas below use for the runs. *)
Module ClaseForma.
Import Clase.

(** What [avisar] adds to the trace. *)
Definition W (conf : Config) (n : Z) (e : Fallo) : list Evento :=
  if negb (truthy (silencio conf)) then [aviso n e] else [].

End ClaseForma.

Module LiteralForma.
Import Literal.

(** What [avisar] adds to the trace once the counter is at [n]. *)
Definition W (self : Instancia) (n : Z) (_ : Fallo) : list Evento :=
  if negb (truthy (modoSilencioso (configuracion self)))
  then [aviso (con_intentos n self)] else [].

(** The world and the settlement of a run, the object left out. *)
Definition visible (r : (Instancia * Mundo) * Promesa) : Mundo * Promesa :=
  (snd (fst r), snd r).

(** The run [iniciar] starts: the counter at 0, the rest of the object as
    it is. *)
Definition corrida (self : Instancia) (m : Mundo) : (Instancia * Mundo) * Promesa :=
  _intentarEjecucion (con_intentos 0 self) m.

End LiteralForma.

Module AsyncForma.
Import Async.

(** What [avisar] adds to the trace. *)
Definition W (config : Config) (n : Z) (_ : Fallo) : list Evento :=
  if negb (truthy (silencio config)) then [aviso n] else [].

(** The pause the loop takes: [config.demoraEntreIntentos || 1000]. *)
Definition demora (config : Config) : JsVal :=
  js_or (demoraEntreIntentos config) (JNum 1000).

End AsyncForma.

(** The text of the warnings, by variant. *)
Definition linea_clase (n : Z) : string := "Intento " ++ texto n ++ " fallido:".

Definition linea_literal (nombre : string) (n : Z) : string :=
  "Intento " ++ texto n ++ " fallido en '" ++ nombre ++ "'.".

Definition linea_async (n : Z) : string := "Intento " ++ texto n ++ " fallido.".

(** The lines a run prints for the attempts [i+1 .. i+k]. *)
Definition lineas (callado : bool) (texto_de : Z -> string) (i : Z) (k : nat) : list string :=
  if callado then [] else map texto_de (desde i k).

(** The warning of a variant in full: nothing in silent mode, else one line
    whose text is [texto_de] of the attempt number. *)
Definition avisa_con (callado : bool) (texto_de : Z -> string)
  (W : Z -> Fallo -> list Evento) : Prop :=
  forall (n : Z) (e : Fallo),
    exists a, W n e = if callado then [] else [EvWarn (texto_de n) a].

(** Everything the claims read in a stretch of trace. *)
Record Lectura (f : Operacion) (tr : list Evento) (llamadas_ fallos_ : nat)
  (pausas : list JsVal) (pasos : list Paso) (lineas : list string) : Prop := {
  lee_invocaciones : invocaciones tr = llamadas_;
  lee_fallidas : fallidas f tr = fallos_;
  lee_esperas : esperas tr = pausas;
  lee_esqueleto : esqueleto tr = pasos;
  lee_avisos : avisos tr = lineas;
  lee_errores : errores tr = [];
  lee_entregas : entregas tr = []
}.

(** The warning of a variant: nothing, or one line of [console.warn]. *)
Definition solo_avisos (W : Z -> Fallo -> list Evento) : Prop :=
  forall (n : Z) (e : Fallo), W n e = [] \/ exists s a, W n e = [EvWarn s a].

(** A run from world [m] that ends in success after [k] failed attempts. *)
Definition exito (W : Z -> Fallo -> list Evento) (d : JsVal) (f : Operacion)
  (m : Mundo) (i : Z) (k : nat) (v : JsVal) (r : Mundo * Promesa) : Prop :=
  f (llamadas m + k)%nat = Cumple v /\
  snd r = Cumple v /\
  llamadas (fst r) = S (llamadas m + k) /\
  traza (fst r) =
    (traza m ++ fallidos W d f (llamadas m) i k ++ [EvInvoca (llamadas m + k)])%list.

(** A run of the class or of the literal object that gives up at the
    attempt after [k] failed ones: no pause follows the last warning. *)
Definition agotamiento (W : Z -> Fallo -> list Evento) (d : JsVal) (f : Operacion)
  (m : Mundo) (i : Z) (k : nat) (e : Fallo) (r : Mundo * Promesa) : Prop :=
  f (llamadas m + k)%nat = Rechaza e /\
  snd r = Rechaza agotado /\
  llamadas (fst r) = S (llamadas m + k) /\
  traza (fst r) =
    (traza m ++ fallidos W d f (llamadas m) i k
       ++ EvInvoca (llamadas m + k) :: W (i + Z.of_nat k + 1) e)%list.

(** A run of the [while] loop that leaves the loop after [k] failed
    attempts, each one followed by its pause. *)
Definition agotamiento_bucle (W : Z -> Fallo -> list Evento) (d : JsVal) (f : Operacion)
  (m : Mundo) (i : Z) (k : nat) (r : Mundo * Promesa) : Prop :=
  snd r = Rechaza agotado /\
  llamadas (fst r) = (llamadas m + k)%nat /\
  traza (fst r) = (traza m ++ fallidos W d f (llamadas m) i k)%list.

(* ===================================================================== *)
(** ** Shape of the runs *)
(* ===================================================================== *)

Lemma faltan_baja (intentos : Z) (maximo : JsVal) :
  js_lt (JNum (intentos + 1)) maximo = true ->
  (faltan (intentos + 1) maximo < faltan intentos maximo)%nat.
Proof.
  unfold js_lt, faltan; simpl.
  destruct (to_number maximo) as [n|]; [|discriminate].
  intros H. apply Z.ltb_lt in H. lia.
Qed.

Lemma faltan_baja_antes (intentos : Z) (maximo : JsVal) :
  js_lt (JNum intentos) maximo = true ->
  (faltan (intentos + 1) maximo < faltan intentos maximo)%nat.
Proof.
  unfold js_lt, faltan; simpl.
  destruct (to_number maximo) as [n|]; [|discriminate].
  intros H. apply Z.ltb_lt in H. lia.
Qed.

(** One more failed attempt in front of a run. *)
Section Paso.
Variables (W : Z -> Fallo -> list Evento) (d : JsVal) (f : Operacion).
Variables (m m1 : Mundo) (i : Z).
Hypothesis Hllamadas : llamadas m1 = S (llamadas m).
Hypothesis Htraza :
  traza m1 =
  (traza m ++ EvInvoca (llamadas m) :: W (i + 1) (razon f (llamadas m)) ++ [EvEspera d])%list.

Lemma traza_paso (k : nat) (fin : list Evento) :
  (traza m1 ++ fallidos W d f (llamadas m1) (i + 1) k ++ fin)%list =
  (traza m ++ fallidos W d f (llamadas m) i (S k) ++ fin)%list.
Proof.
  rewrite Htraza, Hllamadas. simpl.
  rewrite <- !app_assoc. simpl. rewrite <- !app_assoc. reflexivity.
Qed.

Lemma exito_paso (k : nat) (v : JsVal) (r : Mundo * Promesa) :
  exito W d f m1 (i + 1) k v r -> exito W d f m i (S k) v r.
Proof.
  unfold exito. intros (Hf & Hp & Hl & Ht).
  rewrite Hllamadas in Hf, Hl.
  rewrite Nat.add_succ_r. simpl in Hf, Hl.
  repeat split; try assumption.
  rewrite Ht, <- traza_paso, Hllamadas. reflexivity.
Qed.

Lemma agotamiento_paso (k : nat) (e : Fallo) (r : Mundo * Promesa) :
  agotamiento W d f m1 (i + 1) k e r -> agotamiento W d f m i (S k) e r.
Proof.
  unfold agotamiento. intros (Hf & Hp & Hl & Ht).
  rewrite Hllamadas in Hf, Hl.
  rewrite Nat.add_succ_r. simpl in Hf, Hl.
  repeat split; try assumption.
  rewrite Ht, <- traza_paso, Hllamadas.
  replace (i + Z.of_nat (S k) + 1) with (i + 1 + Z.of_nat k + 1) by lia.
  reflexivity.
Qed.

Lemma agotamiento_bucle_paso (k : nat) (r : Mundo * Promesa) :
  agotamiento_bucle W d f m1 (i + 1) k r -> agotamiento_bucle W d f m i (S k) r.
Proof.
  unfold agotamiento_bucle. intros (Hp & Hl & Ht).
  rewrite Hllamadas in Hl.
  repeat split; try assumption; [lia|].
  rewrite Ht.
  rewrite <- (app_nil_r (fallidos W d f (llamadas m1) (i + 1) k)).
  rewrite traza_paso, app_nil_r. reflexivity.
Qed.

End Paso.

Module ClaseBucle.
Import Clase ClaseForma.

Lemma intentar_eq (f : Operacion) (c : Config) (i : Z) (m : Mundo) :
  intentar f c i m =
  match f (llamadas m) with
  | Cumple v => (invocar m, Cumple v)
  | Rechaza e =>
      if js_lt (JNum (i + 1)) (maxIntentos c)
      then intentar f c (i + 1)
             (esperar (demoraEntreIntentos c) (avisar c (i + 1) e (invocar m)))
      else (avisar c (i + 1) e (invocar m), Rechaza agotado)
  end.
Proof.
  simp intentar.
  destruct (f (llamadas m)) as [v|e]; simpl; [reflexivity|].
  destruct (js_lt (JNum (i + 1)) (maxIntentos c)) eqn:E; reflexivity.
Qed.

Lemma traza_avisar_clase (c : Config) (n : Z) (e : Fallo) (m : Mundo) :
  traza (avisar c n e m) = (traza m ++ W c n e)%list /\
  llamadas (avisar c n e m) = llamadas m.
Proof.
  unfold avisar, W.
  destruct (negb (truthy (silencio c))); simpl; [tauto|].
  now rewrite app_nil_r.
Qed.

Lemma intentar_forma (f : Operacion) (c : Config) (i : Z) (m : Mundo) :
  exists k : nat,
    (forall j : nat, (j < k)%nat -> exists e, f (llamadas m + j)%nat = Rechaza e) /\
    (forall j : nat, (j < k)%nat ->
       js_lt (JNum (i + Z.of_nat j + 1)) (maxIntentos c) = true) /\
    ((exists v, exito (W c) (demoraEntreIntentos c) f m i k v (intentar f c i m)) \/
     (exists e,
        js_lt (JNum (i + Z.of_nat k + 1)) (maxIntentos c) = false /\
        agotamiento (W c) (demoraEntreIntentos c) f m i k e (intentar f c i m))).
Proof.
  remember (faltan i (maxIntentos c)) as n eqn:Hn.
  revert i m Hn.
  induction n as [n IH] using lt_wf_ind; intros i m Hn.
  rewrite intentar_eq.
  destruct (f (llamadas m)) as [v|e] eqn:Hf.
  - exists 0%nat. repeat split; try (intros; lia).
    left. exists v. unfold exito; simpl.
    rewrite Nat.add_0_r. auto.
  - destruct (js_lt (JNum (i + 1)) (maxIntentos c)) eqn:Hlt.
    + set (m1 := esperar (demoraEntreIntentos c) (avisar c (i + 1) e (invocar m))).
      assert (Hl1 : llamadas m1 = S (llamadas m)).
      { unfold m1, esperar; simpl. now rewrite (proj2 (traza_avisar_clase _ _ _ _)). }
      assert (Ht1 : traza m1 =
                (traza m ++ EvInvoca (llamadas m)
                   :: W c (i + 1) (razon f (llamadas m)) ++ [EvEspera (demoraEntreIntentos c)])%list).
      { unfold m1, esperar, razon; simpl.
        rewrite (proj1 (traza_avisar_clase _ _ _ _)), Hf; simpl.
        rewrite <- !app_assoc. reflexivity. }
      destruct (IH (faltan (i + 1) (maxIntentos c))) with (i := i + 1) (m := m1)
        as (k & Hfail & Hmax & Hend); [subst n; now apply faltan_baja | reflexivity |].
      exists (S k). split; [|split].
      * intros [|j] Hj; [rewrite Nat.add_0_r; eauto|].
        rewrite Nat.add_succ_r, <- Nat.add_succ_l, <- Hl1. apply Hfail; lia.
      * intros [|j] Hj; [simpl; now rewrite Z.add_0_r|].
        replace (i + Z.of_nat (S j) + 1) with (i + 1 + Z.of_nat j + 1) by lia.
        apply Hmax; lia.
      * destruct Hend as [(v & Hv)|(e' & Hno & He')].
        -- left. exists v. eapply exito_paso; eauto.
        -- right. exists e'. split.
           ++ replace (i + Z.of_nat (S k) + 1) with (i + 1 + Z.of_nat k + 1) by lia.
              exact Hno.
           ++ eapply agotamiento_paso; eauto.
    + exists 0%nat. repeat split; try (intros; lia).
      right. exists e. simpl. rewrite Z.add_0_r. split; [assumption|].
      unfold agotamiento; simpl. rewrite Nat.add_0_r, Z.add_0_r.
      repeat split; try assumption.
      * now rewrite (proj2 (traza_avisar_clase _ _ _ _)).
      * rewrite (proj1 (traza_avisar_clase _ _ _ _)); simpl.
        rewrite <- app_assoc. reflexivity.
Qed.

End ClaseBucle.

Module LiteralBucle.
Import Literal LiteralForma.

Lemma _intentarEjecucion_eq (self : Instancia) (m : Mundo) :
  _intentarEjecucion self m =
  match ejecutar self (llamadas m) with
  | Cumple v => ((self, invocar m), Cumple v)
  | Rechaza e =>
      let self1 := con_intentos (_intentosRealizados self + 1) self in
      if js_lt (JNum (_intentosRealizados self + 1)) (reintentos (configuracion self))
      then _intentarEjecucion self1
             (esperar (demoraEntreIntentos (configuracion self)) (avisar self1 (invocar m)))
      else ((self1, avisar self1 (invocar m)), Rechaza agotado)
  end.
Proof.
  simp _intentarEjecucion.
  destruct (ejecutar self (llamadas m)) as [v|e]; simpl; [reflexivity|].
  destruct (js_lt (JNum (_intentosRealizados self + 1)) (reintentos (configuracion self)));
    reflexivity.
Qed.

Lemma traza_avisar_literal (self : Instancia) (n : Z) (e : Fallo) (m : Mundo) :
  traza (avisar (con_intentos n self) m) = (traza m ++ W self n e)%list /\
  llamadas (avisar (con_intentos n self) m) = llamadas m.
Proof.
  unfold avisar, W; simpl.
  destruct (negb (truthy (modoSilencioso (configuracion self)))); simpl; [tauto|].
  now rewrite app_nil_r.
Qed.

Lemma con_intentos_mismo (self : Instancia) :
  con_intentos (_intentosRealizados self) self = self.
Proof. now destruct self. Qed.

Lemma _intentarEjecucion_forma (self : Instancia) (m : Mundo) :
  let i := _intentosRealizados self in
  let f := ejecutar self in
  let c := configuracion self in
  let r := _intentarEjecucion self m in
  exists k : nat,
    (forall j : nat, (j < k)%nat -> exists e, f (llamadas m + j)%nat = Rechaza e) /\
    (forall j : nat, (j < k)%nat ->
       js_lt (JNum (i + Z.of_nat j + 1)) (reintentos c) = true) /\
    ((exists v,
        fst (fst r) = con_intentos (i + Z.of_nat k) self /\
        exito (W self) (demoraEntreIntentos c) f m i k v (visible r)) \/
     (exists e,
        js_lt (JNum (i + Z.of_nat k + 1)) (reintentos c) = false /\
        fst (fst r) = con_intentos (i + Z.of_nat k + 1) self /\
        agotamiento (W self) (demoraEntreIntentos c) f m i k e (visible r))).
Proof.
  cbv zeta.
  remember (faltan (_intentosRealizados self) (reintentos (configuracion self))) as n eqn:Hn.
  revert self m Hn.
  induction n as [n IH] using lt_wf_ind; intros self m Hn.
  rewrite _intentarEjecucion_eq.
  set (i := _intentosRealizados self).
  set (f := ejecutar self).
  set (c := configuracion self).
  fold i f c in Hn.
  destruct (f (llamadas m)) as [v|e] eqn:Hf.
  - exists 0%nat. repeat split; try (intros; lia).
    left. exists v. simpl. rewrite Z.add_0_r. split.
    + symmetry. apply con_intentos_mismo.
    + unfold exito; simpl. rewrite Nat.add_0_r. auto.
  - cbv zeta.
    destruct (js_lt (JNum (i + 1)) (reintentos c)) eqn:Hlt.
    + set (self1 := con_intentos (i + 1) self).
      set (m1 := esperar (demoraEntreIntentos c) (avisar self1 (invocar m))).
      assert (Hl1 : llamadas m1 = S (llamadas m)).
      { unfold m1, esperar, self1; simpl.
        now rewrite (proj2 (traza_avisar_literal self (i + 1) e _)). }
      assert (Ht1 : traza m1 =
                (traza m ++ EvInvoca (llamadas m)
                   :: W self (i + 1) (razon f (llamadas m))
                   ++ [EvEspera (demoraEntreIntentos c)])%list).
      { unfold m1, esperar, self1; simpl.
        rewrite (proj1 (traza_avisar_literal self (i + 1) (razon f (llamadas m)) _)); simpl.
        rewrite <- !app_assoc. reflexivity. }
      destruct (IH (faltan (i + 1) (reintentos c))) with (self := self1) (m := m1)
        as (k & Hfail & Hmax & Hend); [subst n; now apply faltan_baja | reflexivity |].
      change (_intentosRealizados self1) with (i + 1) in Hmax, Hend.
      change (ejecutar self1) with f in Hfail, Hend.
      change (configuracion self1) with c in Hmax, Hend.
      change (W self1) with (W self) in Hend.
      exists (S k). split; [|split].
      * intros [|j] Hj; [rewrite Nat.add_0_r; eauto|].
        rewrite Nat.add_succ_r, <- Nat.add_succ_l, <- Hl1. apply Hfail; lia.
      * intros [|j] Hj; [simpl; now rewrite Z.add_0_r|].
        replace (i + Z.of_nat (S j) + 1) with (i + 1 + Z.of_nat j + 1) by lia.
        apply Hmax; lia.
      * destruct Hend as [(v & Hs & Hv)|(e' & Hno & Hs & He')].
        -- left. exists v. split.
           ++ rewrite Hs. unfold self1, con_intentos; simpl. f_equal; lia.
           ++ eapply exito_paso; eauto.
        -- right. exists e'. split; [|split].
           ++ replace (i + Z.of_nat (S k) + 1) with (i + 1 + Z.of_nat k + 1) by lia.
              exact Hno.
           ++ rewrite Hs. unfold self1, con_intentos; simpl. f_equal; lia.
           ++ eapply agotamiento_paso; eauto.
    + exists 0%nat. repeat split; try (intros; lia).
      right. exists e. simpl. rewrite Z.add_0_r. split; [assumption|].
      split; [reflexivity|].
      unfold agotamiento, visible; simpl. rewrite Nat.add_0_r, Z.add_0_r.
      repeat split; try assumption.
      * now rewrite (proj2 (traza_avisar_literal self (i + 1) e _)).
      * rewrite (proj1 (traza_avisar_literal self (i + 1) e _)); simpl.
        rewrite <- app_assoc. reflexivity.
Qed.

End LiteralBucle.

Module AsyncBucle.
Import Async AsyncForma.

Lemma bucle_eq (f : Operacion) (c : Config) (i : Z) (m : Mundo) :
  bucle f c i m =
  if js_lt (JNum i) (maxIntentos c)
  then match f (llamadas m) with
       | Cumple v => (invocar m, Cumple v)
       | Rechaza _ =>
           bucle f c (i + 1) (esperar (demora c) (avisar c (i + 1) (invocar m)))
       end
  else (m, Rechaza agotado).
Proof.
  funelim (bucle f c i m);
    try match goal with H : js_lt _ _ = _ |- _ => rewrite H end;
    try match goal with H : _ (llamadas _) = _ |- _ => rewrite H end;
    reflexivity.
Qed.

Lemma traza_avisar_async (c : Config) (n : Z) (e : Fallo) (m : Mundo) :
  traza (avisar c n m) = (traza m ++ W c n e)%list /\
  llamadas (avisar c n m) = llamadas m.
Proof.
  unfold avisar, W.
  destruct (negb (truthy (silencio c))); simpl; [tauto|].
  now rewrite app_nil_r.
Qed.

Lemma bucle_forma (f : Operacion) (c : Config) (i : Z) (m : Mundo) :
  exists k : nat,
    (forall j : nat, (j < k)%nat -> exists e, f (llamadas m + j)%nat = Rechaza e) /\
    (forall j : nat, (j < k)%nat ->
       js_lt (JNum (i + Z.of_nat j)) (maxIntentos c) = true) /\
    ((exists v,
        js_lt (JNum (i + Z.of_nat k)) (maxIntentos c) = true /\
        exito (W c) (demora c) f m i k v (bucle f c i m)) \/
     (js_lt (JNum (i + Z.of_nat k)) (maxIntentos c) = false /\
      agotamiento_bucle (W c) (demora c) f m i k (bucle f c i m))).
Proof.
  remember (faltan i (maxIntentos c)) as n eqn:Hn.
  revert i m Hn.
  induction n as [n IH] using lt_wf_ind; intros i m Hn.
  rewrite bucle_eq.
  destruct (js_lt (JNum i) (maxIntentos c)) eqn:Hlt.
  - destruct (f (llamadas m)) as [v|e] eqn:Hf.
    + exists 0%nat. repeat split; try (intros; lia).
      left. exists v. simpl. rewrite Z.add_0_r. split; [assumption|].
      unfold exito; simpl. rewrite Nat.add_0_r. auto.
    + set (m1 := esperar (demora c) (avisar c (i + 1) (invocar m))).
      assert (Hl1 : llamadas m1 = S (llamadas m)).
      { unfold m1, esperar; simpl. now rewrite (proj2 (traza_avisar_async c (i + 1) e _)). }
      assert (Ht1 : traza m1 =
                (traza m ++ EvInvoca (llamadas m)
                   :: W c (i + 1) (razon f (llamadas m)) ++ [EvEspera (demora c)])%list).
      { unfold m1, esperar; simpl.
        rewrite (proj1 (traza_avisar_async c (i + 1) (razon f (llamadas m)) _)); simpl.
        rewrite <- !app_assoc. reflexivity. }
      destruct (IH (faltan (i + 1) (maxIntentos c))) with (i := i + 1) (m := m1)
        as (k & Hfail & Hmax & Hend); [subst n; now apply faltan_baja_antes | reflexivity |].
      exists (S k). split; [|split].
      * intros [|j] Hj; [rewrite Nat.add_0_r; eauto|].
        rewrite Nat.add_succ_r, <- Nat.add_succ_l, <- Hl1. apply Hfail; lia.
      * intros [|j] Hj; [simpl; now rewrite Z.add_0_r|].
        replace (i + Z.of_nat (S j)) with (i + 1 + Z.of_nat j) by lia.
        apply Hmax; lia.
      * replace (i + Z.of_nat (S k)) with (i + 1 + Z.of_nat k) by lia.
        destruct Hend as [(v & Hsi & Hv)|(Hno & He')].
        -- left. exists v. split; [assumption|]. eapply exito_paso; eauto.
        -- right. split; [assumption|]. eapply agotamiento_bucle_paso; eauto.
  - exists 0%nat. repeat split; try (intros; lia).
    right. simpl. rewrite Z.add_0_r. split; [assumption|].
    unfold agotamiento_bucle; simpl. rewrite Nat.add_0_r, app_nil_r. auto.
Qed.

End AsyncBucle.

(* ===================================================================== *)
(** ** Reading the traces of the runs *)
(* ===================================================================== *)

Lemma invocaciones_app (a b : list Evento) :
  invocaciones (a ++ b) = (invocaciones a + invocaciones b)%nat.
Proof. unfold invocaciones. now rewrite filter_app, length_app. Qed.

Lemma fallidas_app (f : Operacion) (a b : list Evento) :
  fallidas f (a ++ b) = (fallidas f a + fallidas f b)%nat.
Proof. unfold fallidas. now rewrite filter_app, length_app. Qed.

Lemma esperas_app (a b : list Evento) : esperas (a ++ b) = (esperas a ++ esperas b)%list.
Proof. apply flat_map_app. Qed.

Lemma avisos_app (a b : list Evento) : avisos (a ++ b) = (avisos a ++ avisos b)%list.
Proof. apply flat_map_app. Qed.

Lemma errores_app (a b : list Evento) : errores (a ++ b) = (errores a ++ errores b)%list.
Proof. apply flat_map_app. Qed.

Lemma entregas_app (a b : list Evento) : entregas (a ++ b) = (entregas a ++ entregas b)%list.
Proof. apply flat_map_app. Qed.

Lemma esqueleto_app (a b : list Evento) :
  esqueleto (a ++ b) = (esqueleto a ++ esqueleto b)%list.
Proof. apply flat_map_app. Qed.

Create Rewrite HintDb lectura.
#[local] Hint Rewrite invocaciones_app fallidas_app esperas_app avisos_app errores_app
  entregas_app esqueleto_app : lectura.

Lemma alternado_S (d : JsVal) (k : nat) :
  alternado d (S k) = (con_pausa_final d k ++ [Intento])%list.
Proof.
  induction k as [|k IH]; [reflexivity|].
  change (alternado d (S (S k))) with (Intento :: Pausa d :: alternado d (S k)).
  rewrite IH. reflexivity.
Qed.

Lemma desde_final (i : Z) (k : nat) :
  desde i (S k) = (desde i k ++ [i + Z.of_nat k + 1])%list.
Proof.
  revert i; induction k as [|k IH]; intros i.
  - simpl. now rewrite Z.add_0_r.
  - change (desde i (S (S k))) with ((i + 1) :: desde (i + 1) (S k)).
    rewrite IH. simpl. do 3 f_equal. lia.
Qed.

Section Lecturas.
Variables (W : Z -> Fallo -> list Evento) (d : JsVal) (f : Operacion).
Hypothesis HW : solo_avisos W.

Lemma lecturas_W (n : Z) (e : Fallo) :
  invocaciones (W n e) = 0%nat /\ fallidas f (W n e) = 0%nat /\ esperas (W n e) = [] /\
  errores (W n e) = [] /\ entregas (W n e) = [] /\ esqueleto (W n e) = [].
Proof.
  destruct (HW n e) as [->|(s & a & ->)]; repeat split; reflexivity.
Qed.

Lemma invocaciones_fallidos (l : nat) (i : Z) (k : nat) :
  invocaciones (fallidos W d f l i k) = k.
Proof.
  revert l i; induction k as [|k IH]; intros l i; [reflexivity|].
  change (fallidos W d f l i (S k)) with
    ([EvInvoca l] ++ W (i + 1) (razon f l) ++ [EvEspera d] ++ fallidos W d f (S l) (i + 1) k)%list.
  autorewrite with lectura.
  rewrite IH, (proj1 (lecturas_W _ _)). reflexivity.
Qed.

Lemma fallidas_fallidos (l : nat) (i : Z) (k : nat) :
  (forall j : nat, (j < k)%nat -> exists e, f (l + j)%nat = Rechaza e) ->
  fallidas f (fallidos W d f l i k) = k.
Proof.
  revert l i; induction k as [|k IH]; intros l i H; [reflexivity|].
  change (fallidos W d f l i (S k)) with
    ([EvInvoca l] ++ W (i + 1) (razon f l) ++ [EvEspera d] ++ fallidos W d f (S l) (i + 1) k)%list.
  autorewrite with lectura.
  rewrite IH, (proj1 (proj2 (lecturas_W _ _))).
  - destruct (H 0%nat) as (e & He); [lia|]. rewrite Nat.add_0_r in He.
    unfold fallidas; simpl. now rewrite He.
  - intros j Hj. destruct (H (S j)) as (e & He); [lia|].
    exists e. now rewrite <- He, Nat.add_succ_r.
Qed.

Lemma esperas_fallidos (l : nat) (i : Z) (k : nat) :
  esperas (fallidos W d f l i k) = repeat d k.
Proof.
  revert l i; induction k as [|k IH]; intros l i; [reflexivity|].
  change (fallidos W d f l i (S k)) with
    ([EvInvoca l] ++ W (i + 1) (razon f l) ++ [EvEspera d] ++ fallidos W d f (S l) (i + 1) k)%list.
  autorewrite with lectura.
  rewrite IH, (proj1 (proj2 (proj2 (lecturas_W _ _)))). reflexivity.
Qed.

Lemma errores_fallidos (l : nat) (i : Z) (k : nat) :
  errores (fallidos W d f l i k) = [].
Proof.
  revert l i; induction k as [|k IH]; intros l i; [reflexivity|].
  change (fallidos W d f l i (S k)) with
    ([EvInvoca l] ++ W (i + 1) (razon f l) ++ [EvEspera d] ++ fallidos W d f (S l) (i + 1) k)%list.
  autorewrite with lectura.
  rewrite IH. destruct (lecturas_W (i + 1) (razon f l)) as (_ & _ & _ & -> & _). reflexivity.
Qed.

Lemma entregas_fallidos (l : nat) (i : Z) (k : nat) :
  entregas (fallidos W d f l i k) = [].
Proof.
  revert l i; induction k as [|k IH]; intros l i; [reflexivity|].
  change (fallidos W d f l i (S k)) with
    ([EvInvoca l] ++ W (i + 1) (razon f l) ++ [EvEspera d] ++ fallidos W d f (S l) (i + 1) k)%list.
  autorewrite with lectura.
  rewrite IH. destruct (lecturas_W (i + 1) (razon f l)) as (_ & _ & _ & _ & -> & _). reflexivity.
Qed.

Lemma esqueleto_fallidos (l : nat) (i : Z) (k : nat) :
  esqueleto (fallidos W d f l i k) = con_pausa_final d k.
Proof.
  revert l i; induction k as [|k IH]; intros l i; [reflexivity|].
  change (fallidos W d f l i (S k)) with
    ([EvInvoca l] ++ W (i + 1) (razon f l) ++ [EvEspera d] ++ fallidos W d f (S l) (i + 1) k)%list.
  autorewrite with lectura.
  rewrite IH. destruct (lecturas_W (i + 1) (razon f l)) as (_ & _ & _ & _ & _ & ->). reflexivity.
Qed.

End Lecturas.

(** The epilogue of [iniciar] calls nothing and waits for nothing. *)
Lemma lee_epilogo (nombre : string) (g : option Callback) (p : Promesa) (f : Operacion) :
  invocaciones (epilogo nombre g p) = 0%nat /\ fallidas f (epilogo nombre g p) = 0%nat /\
  esperas (epilogo nombre g p) = [] /\ esqueleto (epilogo nombre g p) = [] /\
  avisos (epilogo nombre g p) = [].
Proof.
  destruct p as [v|e]; simpl; [|repeat split; reflexivity].
  destruct g as [h|]; simpl; [|repeat split; reflexivity].
  destruct (h v); repeat split; reflexivity.
Qed.

(** The warnings of [k] failed attempts, by what the variant prints. *)
Lemma avisos_fallidos_callado (W : Z -> Fallo -> list Evento) (d : JsVal) (f : Operacion)
  (l : nat) (i : Z) (k : nat) :
  (forall n e, W n e = []) -> avisos (fallidos W d f l i k) = [].
Proof.
  intros HW. revert l i; induction k as [|k IH]; intros l i; [reflexivity|].
  simpl. rewrite HW. simpl. apply IH.
Qed.

Lemma avisos_fallidos_ruidoso (W : Z -> Fallo -> list Evento) (d : JsVal) (f : Operacion)
  (texto_de : Z -> string) (l : nat) (i : Z) (k : nat) :
  (forall n e, exists a, W n e = [EvWarn (texto_de n) a]) ->
  avisos (fallidos W d f l i k) = map texto_de (desde i k).
Proof.
  intros HW. revert l i; induction k as [|k IH]; intros l i; [reflexivity|].
  simpl. destruct (HW (i + 1) (razon f l)) as (a & ->). simpl. now rewrite IH.
Qed.

(** [a < N] on numbers is the comparison of integers. *)
Lemma js_lt_num (a N : Z) : js_lt (JNum a) (JNum N) = (a <? N).
Proof. reflexivity. Qed.

(** How many attempts fail before a run over an operation that always
    fails gives up, when the bound is the number [N >= 1]. *)
Lemma cuenta_agotada (N : Z) (k : nat) :
  1 <= N ->
  (forall j : nat, (j < k)%nat -> (0 + Z.of_nat j + 1 <? N) = true) ->
  (0 + Z.of_nat k + 1 <? N) = false ->
  k = Z.to_nat (N - 1).
Proof.
  intros HN Hsi Hno. apply Z.ltb_ge in Hno.
  destruct k as [|k]; [lia|].
  specialize (Hsi k (Nat.lt_succ_diag_r k)). apply Z.ltb_lt in Hsi. lia.
Qed.

Module ClaseCorridas.
Import Clase ClaseForma ClaseBucle.

(** The promise of [#ejecutarConResiliencia] settles in one of two ways. *)
Lemma fin_clase (f : Operacion) (c : Config) (m : Mundo) :
  (exists v, snd (ejecutarConResiliencia f c m) = Cumple v) \/
  snd (ejecutarConResiliencia f c m) = Rechaza agotado.
Proof.
  unfold ejecutarConResiliencia.
  destruct (intentar_forma f c 0 m) as (k & _ & _ & [(v & H)|(e & _ & H)]).
  - left. exists v. apply H.
  - right. apply H.
Qed.

(** Every attempt fails: the run gives up at attempt [N]. *)
Lemma agota_clase (f : Operacion) (c : Config) (m : Mundo) (N : Z) :
  maxIntentos c = JNum N -> 1 <= N -> falla_siempre f ->
  exists e,
    agotamiento (W c) (demoraEntreIntentos c) f m 0 (Z.to_nat (N - 1)) e
      (ejecutarConResiliencia f c m).
Proof.
  intros Hmax HN Hf. unfold ejecutarConResiliencia.
  destruct (intentar_forma f c 0 m) as (k & _ & Hsi & [(v & H)|(e & Hno & H)]).
  - destruct H as (H & _). destruct (Hf (llamadas m + k)%nat) as (e & He). congruence.
  - rewrite Hmax in Hsi, Hno. setoid_rewrite js_lt_num in Hsi. rewrite js_lt_num in Hno.
    rewrite <- (cuenta_agotada N k HN Hsi Hno). eauto.
Qed.

(** The attempt after [k] failed ones succeeds, within the bound. *)
Lemma acierta_clase (f : Operacion) (c : Config) (m : Mundo) (N : Z) (k : nat) (v : JsVal) :
  maxIntentos c = JNum N -> Z.of_nat k < N -> acierta_tras f (llamadas m) k v ->
  exito (W c) (demoraEntreIntentos c) f m 0 k v (ejecutarConResiliencia f c m).
Proof.
  intros Hmax HN (Hantes & Hv). unfold ejecutarConResiliencia.
  destruct (intentar_forma f c 0 m) as (k' & Hfail & Hsi & Hfin).
  assert (Hk : k' = k).
  { destruct (Nat.lt_trichotomy k' k) as [Hlt|[Heq|Hgt]]; [|assumption|].
    - exfalso. destruct (Hantes k' Hlt) as (e & He).
      destruct Hfin as [(v' & H)|(e' & Hno & H)].
      + destruct H as (H & _). congruence.
      + rewrite Hmax, js_lt_num in Hno. apply Z.ltb_ge in Hno. lia.
    - exfalso. destruct (Hfail k Hgt) as (e & He). congruence. }
  subst k'.
  destruct Hfin as [(v' & H)|(e' & _ & H)].
  - assert (v' = v) by (destruct H as (H & _); congruence). now subst v'.
  - destruct H as (H & _). congruence.
Qed.

End ClaseCorridas.

Module LiteralCorridas.
Import Literal LiteralForma LiteralBucle.

Lemma corrida_forma (self : Instancia) (m : Mundo) :
  let f := ejecutar self in
  let c := configuracion self in
  exists k : nat,
    (forall j : nat, (j < k)%nat -> exists e, f (llamadas m + j)%nat = Rechaza e) /\
    (forall j : nat, (j < k)%nat ->
       js_lt (JNum (0 + Z.of_nat j + 1)) (reintentos c) = true) /\
    ((exists v,
        fst (fst (corrida self m)) = con_intentos (0 + Z.of_nat k) self /\
        exito (W self) (demoraEntreIntentos c) f m 0 k v (visible (corrida self m))) \/
     (exists e,
        js_lt (JNum (0 + Z.of_nat k + 1)) (reintentos c) = false /\
        fst (fst (corrida self m)) = con_intentos (0 + Z.of_nat k + 1) self /\
        agotamiento (W self) (demoraEntreIntentos c) f m 0 k e (visible (corrida self m)))).
Proof.
  exact (_intentarEjecucion_forma (con_intentos 0 self) m).
Qed.

Lemma fin_literal (self : Instancia) (m : Mundo) :
  (exists v, snd (corrida self m) = Cumple v) \/ snd (corrida self m) = Rechaza agotado.
Proof.
  destruct (corrida_forma self m) as (k & _ & _ & [(v & _ & H)|(e & _ & _ & H)]).
  - left. exists v. apply H.
  - right. apply H.
Qed.

Lemma agota_literal (self : Instancia) (m : Mundo) (N : Z) :
  reintentos (configuracion self) = JNum N -> 1 <= N -> falla_siempre (ejecutar self) ->
  fst (fst (corrida self m)) = con_intentos N self /\
  exists e,
    agotamiento (W self) (demoraEntreIntentos (configuracion self)) (ejecutar self) m 0
      (Z.to_nat (N - 1)) e (visible (corrida self m)).
Proof.
  intros Hmax HN Hf.
  destruct (corrida_forma self m) as (k & _ & Hsi & [(v & _ & H)|(e & Hno & Hs & H)]).
  - destruct H as (H & _).
    destruct (Hf (llamadas m + k)%nat) as (e & He). congruence.
  - rewrite Hmax in Hsi, Hno. setoid_rewrite js_lt_num in Hsi. rewrite js_lt_num in Hno.
    pose proof (cuenta_agotada N k HN Hsi Hno) as Hk.
    split.
    + rewrite Hs. f_equal. lia.
    + rewrite <- Hk. eauto.
Qed.

Lemma acierta_literal (self : Instancia) (m : Mundo) (N : Z) (k : nat) (v : JsVal) :
  reintentos (configuracion self) = JNum N -> Z.of_nat k < N ->
  acierta_tras (ejecutar self) (llamadas m) k v ->
  fst (fst (corrida self m)) = con_intentos (Z.of_nat k) self /\
  exito (W self) (demoraEntreIntentos (configuracion self)) (ejecutar self) m 0 k v
    (visible (corrida self m)).
Proof.
  intros Hmax HN (Hantes & Hv).
  destruct (corrida_forma self m) as (k' & Hfail & Hsi & Hfin).
  assert (Hk : k' = k).
  { destruct (Nat.lt_trichotomy k' k) as [Hlt|[Heq|Hgt]]; [|assumption|].
    - exfalso. destruct (Hantes k' Hlt) as (e & He).
      destruct Hfin as [(v' & _ & H)|(e' & Hno & _ & H)].
      + destruct H as (H & _). congruence.
      + rewrite Hmax, js_lt_num in Hno. apply Z.ltb_ge in Hno. lia.
    - exfalso. destruct (Hfail k Hgt) as (e & He). congruence. }
  subst k'.
  destruct Hfin as [(v' & Hs & H)|(e' & _ & _ & H)].
  - assert (v' = v) by (destruct H as (H & _); congruence). subst v'.
    split; [rewrite Hs; f_equal; lia | assumption].
  - destruct H as (H & _). congruence.
Qed.

End LiteralCorridas.

Module AsyncCorridas.
Import Async AsyncForma AsyncBucle.

Lemma fin_async (f : Operacion) (c : Config) (m : Mundo) :
  (exists v, snd (ejecutarConResiliencia f c m) = Cumple v) \/
  snd (ejecutarConResiliencia f c m) = Rechaza agotado.
Proof.
  unfold ejecutarConResiliencia.
  destruct (bucle_forma f c 0 m) as (k & _ & _ & [(v & _ & H)|(_ & H)]).
  - left. exists v. apply H.
  - right. apply H.
Qed.

(** Every attempt fails: the loop is left after [N] attempts and [N]
    pauses. *)
Lemma agota_async (f : Operacion) (c : Config) (m : Mundo) (N : Z) :
  maxIntentos c = JNum N -> 1 <= N -> falla_siempre f ->
  agotamiento_bucle (W c) (demora c) f m 0 (Z.to_nat N) (ejecutarConResiliencia f c m).
Proof.
  intros Hmax HN Hf. unfold ejecutarConResiliencia.
  destruct (bucle_forma f c 0 m) as (k & _ & Hsi & [(v & _ & H)|(Hno & H)]).
  - destruct H as (H & _). destruct (Hf (llamadas m + k)%nat) as (e & He). congruence.
  - rewrite Hmax in Hsi, Hno. setoid_rewrite js_lt_num in Hsi. rewrite js_lt_num in Hno.
    apply Z.ltb_ge in Hno.
    assert (Hk : k = Z.to_nat N).
    { destruct k as [|k]; [lia|].
      specialize (Hsi k (Nat.lt_succ_diag_r k)). apply Z.ltb_lt in Hsi. lia. }
    now rewrite <- Hk.
Qed.

Lemma acierta_async (f : Operacion) (c : Config) (m : Mundo) (N : Z) (k : nat) (v : JsVal) :
  maxIntentos c = JNum N -> Z.of_nat k < N -> acierta_tras f (llamadas m) k v ->
  exito (W c) (demora c) f m 0 k v (ejecutarConResiliencia f c m).
Proof.
  intros Hmax HN (Hantes & Hv). unfold ejecutarConResiliencia.
  destruct (bucle_forma f c 0 m) as (k' & Hfail & Hsi & Hfin).
  assert (Hk : k' = k).
  { destruct (Nat.lt_trichotomy k' k) as [Hlt|[Heq|Hgt]]; [|assumption|].
    - exfalso. destruct (Hantes k' Hlt) as (e & He).
      destruct Hfin as [(v' & _ & H)|(Hno & _)].
      + destruct H as (H & _). congruence.
      + rewrite Hmax, js_lt_num in Hno. apply Z.ltb_ge in Hno. lia.
    - exfalso. destruct (Hfail k Hgt) as (e & He). congruence. }
  subst k'.
  destruct Hfin as [(v' & _ & H)|(Hno & _)].
  - assert (v' = v) by (destruct H as (H & _); congruence). now subst v'.
  - rewrite Hmax, js_lt_num in Hno. apply Z.ltb_ge in Hno. lia.
Qed.

End AsyncCorridas.

Lemma avisa_con_solo (callado : bool) (texto_de : Z -> string)
  (W : Z -> Fallo -> list Evento) :
  avisa_con callado texto_de W -> solo_avisos W.
Proof.
  intros H n e. destruct (H n e) as (a & ->).
  destruct callado; [now left | right; eauto].
Qed.

Section Cuerpos.
Variables (W : Z -> Fallo -> list Evento) (d : JsVal) (f : Operacion).
Variables (callado : bool) (texto_de : Z -> string).
Hypothesis HW : avisa_con callado texto_de W.

Lemma avisos_fallidos (l : nat) (i : Z) (k : nat) :
  avisos (fallidos W d f l i k) = lineas callado texto_de i k.
Proof.
  unfold lineas. destruct callado.
  - apply avisos_fallidos_callado. intros n e. now destruct (HW n e) as (a & ->).
  - apply avisos_fallidos_ruidoso. intros n e. destruct (HW n e) as (a & ->). eauto.
Qed.

Lemma lineas_final (i : Z) (k : nat) :
  (lineas callado texto_de i k ++ (if callado then [] else [texto_de (i + Z.of_nat k + 1)]))%list
  = lineas callado texto_de i (S k).
Proof.
  unfold lineas. destruct callado; [reflexivity|].
  now rewrite desde_final, map_app.
Qed.

(** The [k] failed attempts every run starts with. *)
Lemma lee_fallidos (l : nat) (i : Z) (k : nat) :
  (forall j : nat, (j < k)%nat -> exists e, f (l + j)%nat = Rechaza e) ->
  Lectura f (fallidos W d f l i k) k k (repeat d k) (con_pausa_final d k)
    (lineas callado texto_de i k).
Proof.
  intros Hfail. pose proof (avisa_con_solo _ _ _ HW) as HS.
  constructor.
  - now apply invocaciones_fallidos.
  - now apply fallidas_fallidos.
  - now apply esperas_fallidos.
  - now apply esqueleto_fallidos.
  - apply avisos_fallidos.
  - now apply errores_fallidos.
  - now apply entregas_fallidos.
Qed.

(** Joining two stretches of trace. *)
Lemma lee_app (a b : list Evento) (na fa nb fb : nat) (pa pb : list JsVal)
  (sa sb : list Paso) (la lb : list string) :
  Lectura f a na fa pa sa la -> Lectura f b nb fb pb sb lb ->
  Lectura f (a ++ b) (na + nb) (fa + fb) (pa ++ pb) (sa ++ sb) (la ++ lb).
Proof.
  intros [A1 A2 A3 A4 A5 A6 A7] [B1 B2 B3 B4 B5 B6 B7].
  constructor; autorewrite with lectura;
    rewrite ?A1, ?A2, ?A3, ?A4, ?A5, ?A6, ?A7, ?B1, ?B2, ?B3, ?B4, ?B5, ?B6, ?B7;
    reflexivity.
Qed.

(** The attempt that succeeds. *)
Lemma lee_acierto (x : nat) (v : JsVal) :
  f x = Cumple v -> Lectura f [EvInvoca x] 1 0 [] [Intento] [].
Proof.
  intros Hx. constructor; try reflexivity.
  unfold fallidas; simpl. now rewrite Hx.
Qed.

(** The attempt after which the class and the literal object give up. *)
Lemma lee_ultimo_fallo (x : nat) (n : Z) (e : Fallo) :
  f x = Rechaza e ->
  Lectura f (EvInvoca x :: W n e) 1 1 [] [Intento] (if callado then [] else [texto_de n]).
Proof.
  intros Hx. destruct (HW n e) as (a & ->).
  destruct callado; constructor; try reflexivity; unfold fallidas; simpl; now rewrite Hx.
Qed.

Lemma exito_lee (m : Mundo) (i : Z) (k : nat) (v : JsVal) (r : Mundo * Promesa) :
  (forall j : nat, (j < k)%nat -> exists e, f (llamadas m + j)%nat = Rechaza e) ->
  exito W d f m i k v r ->
  exists cuerpo,
    traza (fst r) = (traza m ++ cuerpo)%list /\
    Lectura f cuerpo (S k) k (repeat d k) (alternado d (S k)) (lineas callado texto_de i k).
Proof.
  intros Hfail (Hf & _ & _ & Ht).
  eexists. split; [exact Ht|].
  pose proof (lee_app _ _ _ _ _ _ _ _ _ _ _ _ (lee_fallidos (llamadas m) i k Hfail)
                (lee_acierto _ _ Hf)) as H.
  rewrite alternado_S.
  replace (S k) with (k + 1)%nat by lia.
  rewrite !app_nil_r, Nat.add_0_r in H. exact H.
Qed.

Lemma agotamiento_lee (m : Mundo) (i : Z) (k : nat) (e : Fallo) (r : Mundo * Promesa) :
  (forall j : nat, (j < k)%nat -> exists e, f (llamadas m + j)%nat = Rechaza e) ->
  agotamiento W d f m i k e r ->
  exists cuerpo,
    traza (fst r) = (traza m ++ cuerpo)%list /\
    Lectura f cuerpo (S k) (S k) (repeat d k) (alternado d (S k))
      (lineas callado texto_de i (S k)).
Proof.
  intros Hfail (Hf & _ & _ & Ht).
  eexists. split; [exact Ht|].
  pose proof (lee_app _ _ _ _ _ _ _ _ _ _ _ _ (lee_fallidos (llamadas m) i k Hfail)
                (lee_ultimo_fallo _ (i + Z.of_nat k + 1) _ Hf)) as H.
  rewrite alternado_S, <- lineas_final.
  replace (S k) with (k + 1)%nat by lia.
  rewrite !app_nil_r in H. exact H.
Qed.

Lemma agotamiento_bucle_lee (m : Mundo) (i : Z) (k : nat) (r : Mundo * Promesa) :
  (forall j : nat, (j < k)%nat -> exists e, f (llamadas m + j)%nat = Rechaza e) ->
  agotamiento_bucle W d f m i k r ->
  exists cuerpo,
    traza (fst r) = (traza m ++ cuerpo)%list /\
    Lectura f cuerpo k k (repeat d k) (con_pausa_final d k) (lineas callado texto_de i k).
Proof.
  intros Hfail (_ & _ & Ht).
  eexists. split; [exact Ht|]. now apply lee_fallidos.
Qed.

End Cuerpos.

(* ===================================================================== *)
(** ** From the retry loop to [iniciar] *)
(* ===================================================================== *)

Lemma Clase_iniciar_forma (t : Clase.Tarea) (m : Mundo) :
  let r0 := Clase.ejecutarConResiliencia (Clase.ejecutar t) (Clase.config t) m in
  let r := Clase.iniciar t m in
  llamadas (fst r) = llamadas (fst r0) /\
  traza (fst r) =
    (traza (fst r0) ++ epilogo (Clase.nombre t) (Clase.despues t) (snd r0))%list /\
  snd r = salida (Clase.despues t) (snd r0).
Proof.
  cbv zeta. unfold Clase.iniciar, atrapar, entonces, Clase.alCumplir, Clase.alFallar.
  destruct (Clase.ejecutarConResiliencia _ _ m) as [m1 [v|e]]; simpl.
  - destruct (Clase.despues t) as [h|]; simpl.
    + destruct (h v); simpl; repeat split; try reflexivity.
      now rewrite <- app_assoc.
    + now rewrite app_nil_r.
  - repeat split; reflexivity.
Qed.

Lemma Literal_iniciar_forma (self : Literal.Instancia) (m : Mundo) :
  let r0 := LiteralForma.corrida self m in
  let r := Literal.iniciar (self, m) in
  fst (fst r) = fst (fst r0) /\
  llamadas (snd (fst r)) = llamadas (snd (fst r0)) /\
  traza (snd (fst r)) =
    (traza (snd (fst r0)) ++ epilogo (Literal.nombre self) (Literal.despues self) (snd r0))%list /\
  snd r = salida (Literal.despues self) (snd r0).
Proof.
  cbv zeta.
  destruct (LiteralBucle._intentarEjecucion_forma (Literal.con_intentos 0 self) m)
    as (k & _ & _ & Hfin).
  unfold Literal.iniciar, atrapar, entonces, Literal.alCumplir, Literal.alFallar.
  unfold LiteralForma.corrida.
  destruct (Literal._intentarEjecucion (Literal.con_intentos 0 self) m)
    as [[self1 m1] p]; simpl in *.
  assert (Hs : Literal.nombre self1 = Literal.nombre self /\
               Literal.despues self1 = Literal.despues self).
  { destruct Hfin as [(v & -> & _)|(e & _ & -> & _)]; split; reflexivity. }
  destruct Hs as (Hn & Hd).
  destruct p as [v|e]; simpl.
  - rewrite Hd. destruct (Literal.despues self) as [h|]; simpl.
    + destruct (h v); simpl; rewrite ?Hn; repeat split; try reflexivity.
      now rewrite <- app_assoc.
    + now rewrite app_nil_r.
  - rewrite Hn. repeat split; reflexivity.
Qed.

Lemma Async_iniciar_forma (o : Opciones) (cfg : Async.Config) (m : Mundo) :
  Async.prepararConfiguracion (o_configuracion o) = Ok cfg ->
  let r0 := Async.ejecutarConResiliencia (o_ejecutar o) cfg m in
  let r := Async.iniciar o m in
  llamadas (fst r) = llamadas (fst r0) /\
  traza (fst r) =
    (traza (fst r0)
       ++ epilogo (Async.texto_nombre (o_nombre o)) (o_despues o) (snd r0))%list /\
  snd r = Cumple JUndefined.
Proof.
  intros Hcfg. cbv zeta. unfold Async.iniciar, Async.logError. rewrite Hcfg.
  destruct (Async.ejecutarConResiliencia _ _ m) as [m1 [v|e]]; simpl.
  - destruct (o_despues o) as [h|]; simpl.
    + destruct (h v); simpl; repeat split; try reflexivity.
      now rewrite <- app_assoc.
    + now rewrite app_nil_r.
  - repeat split; reflexivity.
Qed.

(** The configuration the three variants run with when the caller writes
    a number of attempts [N >= 1]. *)
Lemma Clase_constructor_max (o : Opciones) (c : Configuracion) (N : Z) (t : Clase.Tarea) :
  o_configuracion o = Objeto c -> reintentos c = JNum N -> 1 <= N ->
  Clase.constructor o = Ok t ->
  Clase.maxIntentos (Clase.config t) = JNum N /\
  Clase.ejecutar t = o_ejecutar o /\ Clase.despues t = o_despues o /\
  Clase.nombre t = nombre_o (o_nombre o) /\
  Clase.demoraEntreIntentos (Clase.config t) = js_or (demoraEntreIntentos c) (JNum 1000) /\
  Clase.silencio (Clase.config t) = js_or (modoSilencioso c) (JBool false).
Proof.
  intros Hc HN H1 Ht. unfold Clase.constructor in Ht. injection Ht as <-. simpl.
  rewrite Hc; simpl. unfold js_or at 1. rewrite HN; simpl.
  destruct (N =? 0) eqn:E; [apply Z.eqb_eq in E; lia|]. simpl. auto 7.
Qed.

Lemma Literal_configurar_max (o : Opciones) (c : Configuracion) (N i0 : Z)
  (self : Literal.Instancia) :
  o_configuracion o = Objeto c -> reintentos c = JNum N -> 1 <= N ->
  Literal.configurar o i0 = Ok self ->
  reintentos (Literal.configuracion self) = JNum N /\
  Literal.ejecutar self = o_ejecutar o /\ Literal.despues self = o_despues o /\
  Literal.nombre self = nombre_o (o_nombre o) /\
  demoraEntreIntentos (Literal.configuracion self)
    = js_or (demoraEntreIntentos c) (JNum 1000) /\
  modoSilencioso (Literal.configuracion self) = js_or (modoSilencioso c) (JBool false).
Proof.
  intros Hc HN H1 Hs. unfold Literal.configurar in Hs. rewrite Hc in Hs.
  injection Hs as <-. simpl. unfold js_or at 1. rewrite HN; simpl.
  destruct (N =? 0) eqn:E; [apply Z.eqb_eq in E; lia|]. simpl. auto 7.
Qed.

Lemma Async_preparar_max (o : Opciones) (c : Configuracion) (N : Z) :
  o_configuracion o = Objeto c -> reintentos c = JNum N -> 1 <= N ->
  exists cfg,
    Async.prepararConfiguracion (o_configuracion o) = Ok cfg /\
    Async.maxIntentos cfg = JNum N /\
    AsyncForma.demora cfg = js_or (demoraEntreIntentos c) (JNum 1000) /\
    Async.silencio cfg = js_or (modoSilencioso c) (JBool false).
Proof.
  intros Hc HN H1. rewrite Hc. unfold Async.prepararConfiguracion; simpl.
  eexists; split; [reflexivity|]. simpl. unfold js_or at 1. rewrite HN; simpl.
  destruct (N =? 0) eqn:E; [apply Z.eqb_eq in E; lia|]. auto.
Qed.



(** A whole run: the body of the retry loop, then the epilogue. *)
Lemma lee_corrida (f : Operacion) (cuerpo : list Evento) (nombre : string)
  (g : option Callback) (p : Promesa) (n fa : nat) (pa : list JsVal) (sa : list Paso)
  (la : list string) :
  Lectura f cuerpo n fa pa sa la ->
  let tr := (cuerpo ++ epilogo nombre g p)%list in
  invocaciones tr = n /\ fallidas f tr = fa /\ esperas tr = pa /\ esqueleto tr = sa /\
  avisos tr = la /\ errores tr = errores (epilogo nombre g p) /\
  entregas tr = entregas (epilogo nombre g p).
Proof.
  intros [A1 A2 A3 A4 A5 A6 A7]. cbv zeta.
  destruct (lee_epilogo nombre g p f) as (E1 & E2 & E3 & E4 & E5).
  autorewrite with lectura.
  rewrite A1, A2, A3, A4, A5, A6, A7, E1, E2, E3, E4, E5, !app_nil_r, !Nat.add_0_r.
  repeat split; reflexivity.
Qed.

Lemma Clase_avisa (c : Clase.Config) :
  avisa_con (truthy (Clase.silencio c)) linea_clase (ClaseForma.W c).
Proof.
  intros n e. unfold ClaseForma.W, Clase.aviso, linea_clase.
  destruct (truthy (Clase.silencio c)); [exists None | eexists]; reflexivity.
Qed.

Lemma Literal_avisa (self : Literal.Instancia) :
  avisa_con (truthy (modoSilencioso (Literal.configuracion self)))
    (linea_literal (Literal.nombre self)) (LiteralForma.W self).
Proof.
  intros n e. unfold LiteralForma.W, Literal.aviso, linea_literal.
  destruct (truthy (modoSilencioso (Literal.configuracion self))); [exists None | eexists]; reflexivity.
Qed.

Lemma Async_avisa (c : Async.Config) :
  avisa_con (truthy (Async.silencio c)) linea_async (AsyncForma.W c).
Proof.
  intros n e. unfold AsyncForma.W, Async.aviso, linea_async.
  destruct (truthy (Async.silencio c)); [exists None | eexists]; reflexivity.
Qed.

(* ===================================================================== *)
(** ** The retry contract: an operation that always fails *)
(* ===================================================================== *)

Lemma falla_siempre_desde (f : Operacion) (l k : nat) :
  falla_siempre f -> forall j : nat, (j < k)%nat -> exists e, f (l + j)%nat = Rechaza e.
Proof. intros H j _. apply H. Qed.

(** The class keeps the retry contract: [N] attempts, [N - 1] pauses
    between them, then the exhaustion failure. *)
Lemma clase_reintenta_y_agota (o : Opciones) (c : Configuracion) (N : Z)
  (t : Clase.Tarea) (m : Mundo) :
  o_configuracion o = Objeto c -> reintentos c = JNum N -> 1 <= N ->
  falla_siempre (o_ejecutar o) ->
  Clase.constructor o = Ok t ->
  reintenta_y_agota (demora_de c) N m (Clase.iniciar t m).
Proof.
  intros Hc HN H1 Hf Ht.
  destruct (Clase_constructor_max o c N t Hc HN H1 Ht) as (Hmax & He & Hd & Hn & Hdem & Hsil).
  rewrite <- He in Hf.
  destruct (ClaseCorridas.agota_clase _ _ m N Hmax H1 Hf) as (e & Hag).
  destruct (agotamiento_lee _ _ _ _ _ (Clase_avisa _) _ _ _ _ _
              (falla_siempre_desde _ _ _ Hf) Hag) as (cuerpo & Htr & Hlee).
  destruct Hag as (_ & Hp & _).
  destruct (Clase_iniciar_forma t m) as (_ & Htr' & Hp'). cbv zeta in Htr', Hp'.
  rewrite Hp in Htr', Hp'. rewrite Htr, <- app_assoc in Htr'.
  destruct (lee_corrida _ _ (Clase.nombre t) (Clase.despues t) (Rechaza agotado) _ _ _ _ _ Hlee)
    as (L1 & _ & L3 & L4 & _).
  eexists. split; [exact Htr'|].
  rewrite L1, L3, L4, Hdem. fold (demora_de c).
  replace (S (Z.to_nat (N - 1))) with (Z.to_nat N) by lia.
  repeat split; try reflexivity. exact Hp'.
Qed.

(** So does the literal object. *)
Lemma literal_reintenta_y_agota (o : Opciones) (c : Configuracion) (N i0 : Z)
  (self : Literal.Instancia) (m : Mundo) :
  o_configuracion o = Objeto c -> reintentos c = JNum N -> 1 <= N ->
  falla_siempre (o_ejecutar o) ->
  Literal.configurar o i0 = Ok self ->
  reintenta_y_agota (demora_de c) N m (LiteralForma.visible (Literal.iniciar (self, m))).
Proof.
  intros Hc HN H1 Hf Hs.
  destruct (Literal_configurar_max o c N i0 self Hc HN H1 Hs)
    as (Hmax & He & Hd & Hn & Hdem & Hsil).
  rewrite <- He in Hf.
  destruct (LiteralCorridas.agota_literal self m N Hmax H1 Hf) as (_ & e & Hag).
  destruct (agotamiento_lee _ _ _ _ _ (Literal_avisa _) _ _ _ _ _
              (falla_siempre_desde _ _ _ Hf) Hag) as (cuerpo & Htr & Hlee).
  destruct Hag as (_ & Hp & _).
  destruct (Literal_iniciar_forma self m) as (_ & _ & Htr' & Hp'). cbv zeta in Htr', Hp'.
  unfold LiteralForma.visible, reintenta_y_agota in *; cbn [fst snd] in *.
  rewrite Hp in Htr', Hp'. rewrite Htr, <- app_assoc in Htr'.
  destruct (lee_corrida _ _ (Literal.nombre self) (Literal.despues self) (Rechaza agotado)
              _ _ _ _ _ Hlee) as (L1 & _ & L3 & L4 & _).
  eexists. split; [exact Htr'|].
  rewrite L1, L3, L4, Hdem. fold (demora_de c).
  replace (S (Z.to_nat (N - 1))) with (Z.to_nat N) by lia.
  repeat split; try reflexivity. exact Hp'.
Qed.

(** C1 (code defect, async variant).  The claim: an operation that fails
    at every call is called [N] times with [N - 1] pauses, none after the
    last failed attempt, and [iniciar] ends in the exhaustion failure.
    What [TareaInteligenteAsync.js] does for every [N >= 1]: it calls the
    operation [N] times and pauses [N] times, the last pause after the
    last failed attempt, and the promise of [iniciar] is fulfilled with
    undefined. *)
Theorem async_pausa_tras_el_ultimo_fallo (o : Opciones) (c : Configuracion) (N : Z)
  (m : Mundo) :
  o_configuracion o = Objeto c -> reintentos c = JNum N -> 1 <= N ->
  falla_siempre (o_ejecutar o) ->
  exists tr,
    nuevos m (fst (Async.iniciar o m)) tr /\
    invocaciones tr = Z.to_nat N /\
    esperas tr = repeat (demora_de c) (Z.to_nat N) /\
    esqueleto tr = con_pausa_final (demora_de c) (Z.to_nat N) /\
    snd (Async.iniciar o m) = Cumple JUndefined.
Proof.
  intros Hc HN H1 Hf.
  destruct (Async_preparar_max o c N Hc HN H1) as (cfg & Hcfg & Hmax & Hdem & Hsil).
  pose proof (AsyncCorridas.agota_async _ _ m N Hmax H1 Hf) as Hag.
  destruct (agotamiento_bucle_lee _ _ _ _ _ (Async_avisa _) _ _ _ _
              (falla_siempre_desde _ _ _ Hf) Hag) as (cuerpo & Htr & Hlee).
  destruct Hag as (Hp & _).
  destruct (Async_iniciar_forma o cfg m Hcfg) as (_ & Htr' & Hp'). cbv zeta in Htr', Hp'.
  rewrite Hp in Htr'. rewrite Htr, <- app_assoc in Htr'.
  destruct (lee_corrida _ _ (Async.texto_nombre (o_nombre o)) (o_despues o) (Rechaza agotado)
              _ _ _ _ _ Hlee) as (L1 & _ & L3 & L4 & _).
  eexists. split; [exact Htr'|].
  rewrite L1, L3, L4, Hdem. fold (demora_de c).
  repeat split; try reflexivity. exact Hp'.
Qed.

Lemma async_pausa_tras_el_ultimo_fallo_testigo :
  let o := Ejemplos.opciones Ejemplos.un_intento Ejemplos.siempre_rechaza None in
  exists tr,
    nuevos inicial (fst (Async.iniciar o inicial)) tr /\
    invocaciones tr = 1%nat /\
    esperas tr = [JNum 1500] /\
    esqueleto tr = [Intento; Pausa (JNum 1500)] /\
    snd (Async.iniciar o inicial) = Cumple JUndefined.
Proof.
  apply (async_pausa_tras_el_ultimo_fallo
           (Ejemplos.opciones Ejemplos.un_intento Ejemplos.siempre_rechaza None)
           Ejemplos.un_intento 1 inicial).
  - reflexivity.
  - reflexivity.
  - lia.
  - intros i. eexists. reflexivity.
Defined.

Lemma async_rompe_el_contrato :
  ~ reintenta_y_agota (JNum 1500) 1 inicial
      (Async.iniciar (Ejemplos.opciones Ejemplos.un_intento Ejemplos.siempre_rechaza None)
         inicial).
Proof.
  intros (tr & _ & _ & _ & _ & H). vm_compute in H. discriminate.
Qed.

(* ===================================================================== *)
(** ** An operation that succeeds within the bound *)
(* ===================================================================== *)

Lemma clase_acierta (o : Opciones) (c : Configuracion) (N : Z) (k : nat) (v : JsVal)
  (t : Clase.Tarea) (m : Mundo) :
  o_configuracion o = Objeto c -> reintentos c = JNum N -> Z.of_nat k < N ->
  acierta_tras (o_ejecutar o) (llamadas m) k v ->
  Clase.constructor o = Ok t ->
  exists cuerpo,
    traza (fst (Clase.iniciar t m)) =
      (traza m ++ cuerpo ++ epilogo (Clase.nombre t) (o_despues o) (Cumple v))%list /\
    Lectura (o_ejecutar o) cuerpo (S k) k (repeat (demora_de c) k)
      (alternado (demora_de c) (S k))
      (lineas (truthy (js_or (modoSilencioso c) (JBool false))) linea_clase 0 k) /\
    snd (Clase.iniciar t m) = salida (o_despues o) (Cumple v).
Proof.
  intros Hc HN Hk Hf Ht.
  assert (H1 : 1 <= N) by lia.
  destruct (Clase_constructor_max o c N t Hc HN H1 Ht) as (Hmax & He & Hd & Hn & Hdem & Hsil).
  rewrite <- He in Hf.
  pose proof (ClaseCorridas.acierta_clase _ _ m N k v Hmax Hk Hf) as Hex.
  destruct (exito_lee _ _ _ _ _ (Clase_avisa _) _ _ _ _ _ (proj1 Hf) Hex)
    as (cuerpo & Htr & Hlee).
  destruct Hex as (_ & Hp & _).
  destruct (Clase_iniciar_forma t m) as (_ & Htr' & Hp'). cbv zeta in Htr', Hp'.
  rewrite Hp in Htr', Hp'. rewrite Htr, <- app_assoc in Htr'.
  rewrite Hd, ?He, ?Hdem, ?Hsil in *.
  exists cuerpo. auto.
Qed.

Lemma literal_acierta (o : Opciones) (c : Configuracion) (N i0 : Z) (k : nat) (v : JsVal)
  (self : Literal.Instancia) (m : Mundo) :
  o_configuracion o = Objeto c -> reintentos c = JNum N -> Z.of_nat k < N ->
  acierta_tras (o_ejecutar o) (llamadas m) k v ->
  Literal.configurar o i0 = Ok self ->
  let r := LiteralForma.visible (Literal.iniciar (self, m)) in
  exists cuerpo,
    traza (fst r) =
      (traza m ++ cuerpo ++ epilogo (Literal.nombre self) (o_despues o) (Cumple v))%list /\
    Lectura (o_ejecutar o) cuerpo (S k) k (repeat (demora_de c) k)
      (alternado (demora_de c) (S k))
      (lineas (truthy (js_or (modoSilencioso c) (JBool false)))
         (linea_literal (Literal.nombre self)) 0 k) /\
    snd r = salida (o_despues o) (Cumple v).
Proof.
  intros Hc HN Hk Hf Hs.
  assert (H1 : 1 <= N) by lia.
  destruct (Literal_configurar_max o c N i0 self Hc HN H1 Hs)
    as (Hmax & He & Hd & Hn & Hdem & Hsil).
  rewrite <- He in Hf.
  destruct (LiteralCorridas.acierta_literal self m N k v Hmax Hk Hf) as (_ & Hex).
  destruct (exito_lee _ _ _ _ _ (Literal_avisa _) _ _ _ _ _ (proj1 Hf) Hex)
    as (cuerpo & Htr & Hlee).
  destruct Hex as (_ & Hp & _).
  destruct (Literal_iniciar_forma self m) as (_ & _ & Htr' & Hp'). cbv zeta in Htr', Hp'.
  unfold LiteralForma.visible in *; cbn [fst snd] in *.
  rewrite Hp in Htr', Hp'. rewrite Htr, <- app_assoc in Htr'.
  rewrite Hd, ?He, ?Hdem, ?Hsil in *.
  exists cuerpo. auto.
Qed.

Lemma async_acierta (o : Opciones) (c : Configuracion) (N : Z) (k : nat) (v : JsVal)
  (m : Mundo) :
  o_configuracion o = Objeto c -> reintentos c = JNum N -> Z.of_nat k < N ->
  acierta_tras (o_ejecutar o) (llamadas m) k v ->
  exists cuerpo,
    traza (fst (Async.iniciar o m)) =
      (traza m ++ cuerpo
         ++ epilogo (Async.texto_nombre (o_nombre o)) (o_despues o) (Cumple v))%list /\
    Lectura (o_ejecutar o) cuerpo (S k) k (repeat (demora_de c) k)
      (alternado (demora_de c) (S k))
      (lineas (truthy (js_or (modoSilencioso c) (JBool false))) linea_async 0 k) /\
    snd (Async.iniciar o m) = Cumple JUndefined.
Proof.
  intros Hc HN Hk Hf.
  assert (H1 : 1 <= N) by lia.
  destruct (Async_preparar_max o c N Hc HN H1) as (cfg & Hcfg & Hmax & Hdem & Hsil).
  pose proof (AsyncCorridas.acierta_async _ _ m N k v Hmax Hk Hf) as Hex.
  destruct (exito_lee _ _ _ _ _ (Async_avisa _) _ _ _ _ _ (proj1 Hf) Hex)
    as (cuerpo & Htr & Hlee).
  destruct Hex as (_ & Hp & _).
  destruct (Async_iniciar_forma o cfg m Hcfg) as (_ & Htr' & Hp'). cbv zeta in Htr', Hp'.
  rewrite Hp in Htr'. rewrite Htr, <- app_assoc in Htr'.
  rewrite ?Hdem, ?Hsil in *.
  exists cuerpo. auto.
Qed.

(** Reading a successful run that hands the result to a callback. *)
Lemma lee_acierto_entregado (f : Operacion) (cuerpo : list Evento) (nombre : string)
  (g : Callback) (v : JsVal) (n fa : nat) (pa : list JsVal) (sa : list Paso)
  (la : list string) :
  Lectura f cuerpo n fa pa sa la ->
  let tr := (cuerpo ++ epilogo nombre (Some g) (Cumple v))%list in
  invocaciones tr = n /\ entregas tr = [v] /\ (g v = None -> errores tr = []).
Proof.
  intros Hlee. cbv zeta.
  destruct (lee_corrida f cuerpo nombre (Some g) (Cumple v) _ _ _ _ _ Hlee)
    as (L1 & _ & _ & _ & _ & L6 & L7).
  rewrite L1, L6, L7. simpl. repeat split.
  - now destruct (g v).
  - now intros ->.
Qed.

(** A callback that throws: the class reports a failure to the caller
    although the operation succeeded at its first call. *)
Lemma callback_roto_es_un_fallo :
  let t := Ejemplos.tarea
             (Ejemplos.opciones Ejemplos.productos (Ejemplos.responde (JNum 42))
                (Some Ejemplos.callback_roto)) in
  acierta_tras (Clase.ejecutar t) 0 0 (JNum 42) /\
  snd (Clase.iniciar t inicial) = Rechaza (Lanzado JNull) /\
  ~ acierta_sin_fallo 1 (JNum 42) inicial (Clase.iniciar t inicial).
Proof.
  cbv zeta. split; [|split].
  - split; [intros j Hj; lia | reflexivity].
  - vm_compute. reflexivity.
  - intros (tr & _ & _ & _ & _ & w & H). vm_compute in H. discriminate.
Qed.

(** C3, amended.  For [N >= 1] and [1 <= k <= N]: when the operation is
    rejected at its first [k - 1] calls and fulfilled with [v] at the
    [k]-th, [iniciar] calls the operation exactly [k] times and calls the
    callback exactly once, with [v], whatever the callback does; and when
    the callback returns, no failure is reported: nothing is printed on
    [console.error] and the promise is fulfilled.  This holds in the class,
    the literal object and the async variant alike. *)
Theorem acierto_al_intento_k (o : Opciones) (c : Configuracion) (N i0 : Z) (k : nat)
  (v : JsVal) (g : Callback) (t : Clase.Tarea) (self : Literal.Instancia) (m : Mundo) :
  o_configuracion o = Objeto c -> reintentos c = JNum N ->
  (1 <= k)%nat -> Z.of_nat k <= N ->
  acierta_tras (o_ejecutar o) (llamadas m) (k - 1) v ->
  o_despues o = Some g ->
  Clase.constructor o = Ok t -> Literal.configurar o i0 = Ok self ->
  intento_k_entregado g k v m (Clase.iniciar t m) /\
  intento_k_entregado g k v m (LiteralForma.visible (Literal.iniciar (self, m))) /\
  intento_k_entregado g k v m (Async.iniciar o m).
Proof.
  intros Hc HN Hk1 HkN Hf Hg Ht Hs.
  assert (Hlt : Z.of_nat (k - 1) < N) by lia.
  assert (HS : S (k - 1) = k) by lia.
  unfold intento_k_entregado, nuevos.
  destruct (clase_acierta o c N (k - 1) v t m Hc HN Hlt Hf Ht) as (b1 & T1 & L1 & P1).
  destruct (literal_acierta o c N i0 (k - 1) v self m Hc HN Hlt Hf Hs) as (b2 & T2 & L2 & P2).
  destruct (async_acierta o c N (k - 1) v m Hc HN Hlt Hf) as (b3 & T3 & L3 & P3).
  rewrite Hg in *. rewrite HS in *.
  split; [|split].
  - eexists; split; [exact T1|].
    destruct (lee_acierto_entregado _ _ (Clase.nombre t) g v _ _ _ _ _ L1) as (A & B & C).
    repeat split; try assumption; [now apply C|].
    exists v. rewrite P1; simpl. now rewrite H.
  - eexists; split; [exact T2|].
    destruct (lee_acierto_entregado _ _ (Literal.nombre self) g v _ _ _ _ _ L2)
      as (A & B & C).
    repeat split; try assumption; [now apply C|].
    exists v. rewrite P2; simpl. now rewrite H.
  - eexists; split; [exact T3|].
    destruct (lee_acierto_entregado _ _ (Async.texto_nombre (o_nombre o)) g v _ _ _ _ _ L3)
      as (A & B & C).
    repeat split; try assumption; [now apply C|].
    now exists JUndefined.
Qed.

Lemma acierto_al_intento_k_testigo :
  let o := Ejemplos.opciones Ejemplos.productos Ejemplos.falla_primero
             (Some Ejemplos.callback_bueno) in
  intento_k_entregado Ejemplos.callback_bueno 2 (JNum 42) inicial
    (Clase.iniciar (Ejemplos.tarea o) inicial) /\
  intento_k_entregado Ejemplos.callback_bueno 2 (JNum 42) inicial
    (LiteralForma.visible
       (Literal.iniciar (Ejemplos.objeto Ejemplos.productos o, inicial))) /\
  intento_k_entregado Ejemplos.callback_bueno 2 (JNum 42) inicial (Async.iniciar o inicial).
Proof.
  apply (acierto_al_intento_k
           (Ejemplos.opciones Ejemplos.productos Ejemplos.falla_primero
              (Some Ejemplos.callback_bueno))
           Ejemplos.productos 3 0 2 (JNum 42) Ejemplos.callback_bueno).
  - reflexivity.
  - reflexivity.
  - lia.
  - lia.
  - split; [|reflexivity].
    intros j Hj. assert (j = 0%nat) as -> by lia. eexists. reflexivity.
  - reflexivity.
  - reflexivity.
  - reflexivity.
Defined.

(** With a callback that returns, the run of the example reports no
    failure in any variant. *)
Lemma acierto_sin_fallo_con_callback_bueno :
  let o := Ejemplos.opciones Ejemplos.productos Ejemplos.falla_primero
             (Some Ejemplos.callback_bueno) in
  acierta_sin_fallo 2 (JNum 42) inicial (Clase.iniciar (Ejemplos.tarea o) inicial) /\
  acierta_sin_fallo 2 (JNum 42) inicial
    (LiteralForma.visible
       (Literal.iniciar (Ejemplos.objeto Ejemplos.productos o, inicial))) /\
  acierta_sin_fallo 2 (JNum 42) inicial (Async.iniciar o inicial).
Proof.
  cbv zeta. unfold acierta_sin_fallo, nuevos.
  repeat split; eexists; (split; [vm_compute; reflexivity|]);
    repeat split; try reflexivity; eexists; vm_compute; reflexivity.
Qed.

(* ===================================================================== *)
(** ** What the caller of [iniciar] gets on success *)
(* ===================================================================== *)

Lemma epilogo_bueno (nombre : string) (g : option Callback) (v : JsVal) :
  (forall h, g = Some h -> h v = None) ->
  epilogo nombre g (Cumple v) = match g with Some _ => [EvDespues v] | None => [] end /\
  salida g (Cumple v) = Cumple v.
Proof.
  intros H. destruct g as [h|]; simpl; [|auto].
  now rewrite (H h eq_refl).
Qed.

(** The class and the literal object call the callback, when there is
    one, and then fulfil the promise with the result. *)
Lemma clase_y_literal_entregan (o : Opciones) (c : Configuracion) (N i0 : Z) (k : nat)
  (v : JsVal) (t : Clase.Tarea) (self : Literal.Instancia) (m : Mundo) :
  o_configuracion o = Objeto c -> reintentos c = JNum N -> Z.of_nat k < N ->
  acierta_tras (o_ejecutar o) (llamadas m) k v ->
  (forall h, o_despues o = Some h -> h v = None) ->
  Clase.constructor o = Ok t -> Literal.configurar o i0 = Ok self ->
  entrega_y_termina (o_despues o) v (Cumple v) m (Clase.iniciar t m) /\
  entrega_y_termina (o_despues o) v (Cumple v) m
    (LiteralForma.visible (Literal.iniciar (self, m))).
Proof.
  intros Hc HN Hk Hf Hg Ht Hs.
  destruct (clase_acierta o c N k v t m Hc HN Hk Hf Ht) as (b1 & T1 & L1 & P1).
  destruct (literal_acierta o c N i0 k v self m Hc HN Hk Hf Hs) as (b2 & T2 & L2 & P2).
  cbv zeta in *.
  destruct (epilogo_bueno (Clase.nombre t) _ v Hg) as (E1 & S1).
  destruct (epilogo_bueno (Literal.nombre self) _ v Hg) as (E2 & _).
  rewrite E1 in T1. rewrite E2 in T2. rewrite S1 in P1, P2.
  split.
  - exists b1. repeat split; try assumption. apply L1.
  - exists b2. repeat split; try assumption. apply L2.
Qed.

(** C4 (code defect, async variant).  The claim: on success [iniciar]
    calls the callback, if there is one, with the result and then resolves
    with that same result.  What [TareaInteligenteAsync.js] does: it calls
    the callback with the result [v], and then its promise is fulfilled
    with undefined, whatever [v] is; the function has no [return]. *)
Theorem async_no_devuelve_el_resultado (o : Opciones) (c : Configuracion) (N : Z)
  (k : nat) (v : JsVal) (m : Mundo) :
  o_configuracion o = Objeto c -> reintentos c = JNum N -> Z.of_nat k < N ->
  acierta_tras (o_ejecutar o) (llamadas m) k v ->
  (forall h, o_despues o = Some h -> h v = None) ->
  entrega_y_termina (o_despues o) v (Cumple JUndefined) m (Async.iniciar o m).
Proof.
  intros Hc HN Hk Hf Hg.
  destruct (async_acierta o c N k v m Hc HN Hk Hf) as (b & T & L & P).
  destruct (epilogo_bueno (Async.texto_nombre (o_nombre o)) _ v Hg) as (E & _).
  rewrite E in T.
  exists b. repeat split; try assumption. apply L.
Qed.

Lemma async_no_devuelve_el_resultado_testigo :
  let o := Ejemplos.opciones Ejemplos.productos (Ejemplos.responde (JNum 42))
             (Some Ejemplos.callback_bueno) in
  entrega_y_termina (o_despues o) (JNum 42) (Cumple JUndefined) inicial
    (Async.iniciar o inicial).
Proof.
  apply (async_no_devuelve_el_resultado
           (Ejemplos.opciones Ejemplos.productos (Ejemplos.responde (JNum 42))
              (Some Ejemplos.callback_bueno))
           Ejemplos.productos 3 0 (JNum 42) inicial).
  - reflexivity.
  - reflexivity.
  - lia.
  - split; [intros j Hj; lia | reflexivity].
  - intros h Hh. injection Hh as <-. reflexivity.
Defined.

Lemma async_rompe_la_entrega :
  ~ entrega_y_termina (Some Ejemplos.callback_bueno) (JNum 42) (Cumple (JNum 42)) inicial
      (Async.iniciar
         (Ejemplos.opciones Ejemplos.productos (Ejemplos.responde (JNum 42))
            (Some Ejemplos.callback_bueno)) inicial).
Proof.
  intros (cuerpo & _ & _ & H). vm_compute in H. discriminate.
Qed.

(* ===================================================================== *)
(** ** A success callback that throws *)
(* ===================================================================== *)

Lemma lee_callback_roto (f : Operacion) (cuerpo : list Evento) (nombre : string)
  (g : Callback) (v : JsVal) (e : Fallo) (n fa : nat) (pa : list JsVal) (sa : list Paso)
  (la : list string) :
  Lectura f cuerpo n fa pa sa la -> g v = Some e ->
  let tr := (cuerpo ++ epilogo nombre (Some g) (Cumple v))%list in
  invocaciones tr = n /\ entregas tr = [v] /\
  errores tr = [("Error en la tarea '" ++ nombre ++ "':", e)].
Proof.
  intros Hlee Hg. cbv zeta.
  destruct (lee_corrida f cuerpo nombre (Some g) (Cumple v) _ _ _ _ _ Hlee)
    as (L1 & _ & _ & _ & _ & L6 & L7).
  rewrite L1, L6, L7. simpl. rewrite Hg. auto.
Qed.

Lemma llamadas_tras_acierto_clase (t : Clase.Tarea) (m : Mundo) (N : Z) (k : nat) (v : JsVal) :
  Clase.maxIntentos (Clase.config t) = JNum N -> Z.of_nat k < N ->
  acierta_tras (Clase.ejecutar t) (llamadas m) k v ->
  llamadas (fst (Clase.iniciar t m)) = S (llamadas m + k).
Proof.
  intros Hmax Hk Hf.
  destruct (ClaseCorridas.acierta_clase _ _ m N k v Hmax Hk Hf) as (_ & _ & Hl & _).
  destruct (Clase_iniciar_forma t m) as (Hl' & _). cbv zeta in Hl'. congruence.
Qed.

Lemma llamadas_tras_acierto_literal (self : Literal.Instancia) (m : Mundo) (N : Z)
  (k : nat) (v : JsVal) :
  reintentos (Literal.configuracion self) = JNum N -> Z.of_nat k < N ->
  acierta_tras (Literal.ejecutar self) (llamadas m) k v ->
  llamadas (snd (fst (Literal.iniciar (self, m)))) = S (llamadas m + k).
Proof.
  intros Hmax Hk Hf.
  destruct (LiteralCorridas.acierta_literal self m N k v Hmax Hk Hf) as (_ & _ & _ & Hl & _).
  destruct (Literal_iniciar_forma self m) as (_ & Hl' & _). cbv zeta in Hl'.
  unfold LiteralForma.visible in Hl; cbn [fst snd] in Hl. congruence.
Qed.

Lemma llamadas_tras_acierto_async (o : Opciones) (cfg : Async.Config) (m : Mundo) (N : Z)
  (k : nat) (v : JsVal) :
  Async.prepararConfiguracion (o_configuracion o) = Ok cfg ->
  Async.maxIntentos cfg = JNum N -> Z.of_nat k < N ->
  acierta_tras (o_ejecutar o) (llamadas m) k v ->
  llamadas (fst (Async.iniciar o m)) = S (llamadas m + k).
Proof.
  intros Hcfg Hmax Hk Hf.
  destruct (AsyncCorridas.acierta_async _ _ m N k v Hmax Hk Hf) as (_ & _ & Hl & _).
  destruct (Async_iniciar_forma o cfg m Hcfg) as (Hl' & _). cbv zeta in Hl'. congruence.
Qed.

(** In the class and in the literal object the failure of the callback
    reaches the caller, and the operation is not called again. *)
Lemma clase_y_literal_propagan (o : Opciones) (c : Configuracion) (N i0 : Z) (k : nat)
  (v : JsVal) (g : Callback) (e : Fallo) (t : Clase.Tarea) (self : Literal.Instancia)
  (m : Mundo) :
  o_configuracion o = Objeto c -> reintentos c = JNum N -> Z.of_nat k < N ->
  acierta_tras (o_ejecutar o) (llamadas m) k v ->
  o_despues o = Some g -> g v = Some e ->
  Clase.constructor o = Ok t -> Literal.configurar o i0 = Ok self ->
  tras_el_callback k v (Rechaza e) m (Clase.iniciar t m) /\
  tras_el_callback k v (Rechaza e) m (LiteralForma.visible (Literal.iniciar (self, m))).
Proof.
  intros Hc HN Hk Hf Hg Hgv Ht Hs.
  assert (H1 : 1 <= N) by lia.
  destruct (clase_acierta o c N k v t m Hc HN Hk Hf Ht) as (b1 & T1 & L1 & P1).
  destruct (literal_acierta o c N i0 k v self m Hc HN Hk Hf Hs) as (b2 & T2 & L2 & P2).
  destruct (Clase_constructor_max o c N t Hc HN H1 Ht) as (Hmax1 & He1 & _).
  destruct (Literal_configurar_max o c N i0 self Hc HN H1 Hs) as (Hmax2 & He2 & _).
  cbv zeta in *. rewrite Hg in *.
  split.
  - eexists; split; [exact T1|].
    destruct (lee_callback_roto _ _ (Clase.nombre t) g v e _ _ _ _ _ L1 Hgv) as (A & B & _).
    repeat split; try assumption.
    + apply (llamadas_tras_acierto_clase t m N k v Hmax1 Hk). now rewrite He1.
    + rewrite P1; simpl. now rewrite Hgv.
  - eexists; split; [exact T2|].
    destruct (lee_callback_roto _ _ (Literal.nombre self) g v e _ _ _ _ _ L2 Hgv)
      as (A & B & _).
    repeat split; try assumption.
    + apply (llamadas_tras_acierto_literal self m N k v Hmax2 Hk). now rewrite He2.
    + rewrite P2; simpl. now rewrite Hgv.
Qed.

(** C9 (code defect, async variant).  The claim: a failure of the success
    callback is not caught, it reaches the caller of [iniciar], and the
    operation is not retried.  What [TareaInteligenteAsync.js] does: the
    operation is not retried, but the [try] block of [iniciar] encloses
    the call of the callback, so its failure [e] is caught, printed with
    [console.error], and the promise of [iniciar] is fulfilled. *)
Theorem async_atrapa_el_fallo_del_callback (o : Opciones) (c : Configuracion) (N : Z)
  (k : nat) (v : JsVal) (g : Callback) (e : Fallo) (m : Mundo) :
  o_configuracion o = Objeto c -> reintentos c = JNum N -> Z.of_nat k < N ->
  acierta_tras (o_ejecutar o) (llamadas m) k v ->
  o_despues o = Some g -> g v = Some e ->
  tras_el_callback k v (Cumple JUndefined) m (Async.iniciar o m) /\
  exists tr,
    nuevos m (fst (Async.iniciar o m)) tr /\
    errores tr = [("Error en la tarea '" ++ Async.texto_nombre (o_nombre o) ++ "':", e)].
Proof.
  intros Hc HN Hk Hf Hg Hgv.
  assert (H1 : 1 <= N) by lia.
  destruct (async_acierta o c N k v m Hc HN Hk Hf) as (b & T & L & P).
  destruct (Async_preparar_max o c N Hc HN H1) as (cfg & Hcfg & Hmax & _).
  rewrite Hg in *.
  destruct (lee_callback_roto _ _ (Async.texto_nombre (o_nombre o)) g v e _ _ _ _ _ L Hgv)
    as (A & B & C).
  split.
  - eexists; split; [exact T|]. repeat split; try assumption.
    apply (llamadas_tras_acierto_async o cfg m N k v Hcfg Hmax Hk Hf).
  - eexists; split; [exact T|]. exact C.
Qed.

Lemma async_atrapa_el_fallo_del_callback_testigo :
  let o := Ejemplos.opciones Ejemplos.productos (Ejemplos.responde (JNum 42))
             (Some Ejemplos.callback_roto) in
  tras_el_callback 0 (JNum 42) (Cumple JUndefined) inicial (Async.iniciar o inicial) /\
  exists tr,
    nuevos inicial (fst (Async.iniciar o inicial)) tr /\
    errores tr = [("Error en la tarea 'Cargar datos de productos':", Lanzado JNull)].
Proof.
  apply (async_atrapa_el_fallo_del_callback
           (Ejemplos.opciones Ejemplos.productos (Ejemplos.responde (JNum 42))
              (Some Ejemplos.callback_roto))
           Ejemplos.productos 3 0 (JNum 42) Ejemplos.callback_roto (Lanzado JNull) inicial).
  - reflexivity.
  - reflexivity.
  - lia.
  - split; [intros j Hj; lia | reflexivity].
  - reflexivity.
  - reflexivity.
Defined.

Lemma async_rompe_la_propagacion :
  ~ tras_el_callback 0 (JNum 42) (Rechaza (Lanzado JNull)) inicial
      (Async.iniciar
         (Ejemplos.opciones Ejemplos.productos (Ejemplos.responde (JNum 42))
            (Some Ejemplos.callback_roto)) inicial).
Proof.
  intros (tr & _ & _ & _ & _ & H). vm_compute in H. discriminate.
Qed.

(* ===================================================================== *)
(** ** Normalising the configuration *)
(* ===================================================================== *)

(** C10.  In the class a task built with no [configuracion] at all,
    undefined or null, is built without failure and gets the configuration
    of the empty object: 3 attempts, 1000 ms, not silent. *)
Theorem constructor_sin_configuracion (n : option string) (f : Operacion)
  (g : option Callback) :
  let con := fun ref =>
    Clase.constructor
      {| o_nombre := n; o_configuracion := ref; o_ejecutar := f; o_despues := g |} in
  con Indefinido = con (Objeto vacia) /\
  con Nulo = con (Objeto vacia) /\
  exists t,
    con Indefinido = Ok t /\ con Nulo = Ok t /\
    Clase.config t =
      {| Clase.maxIntentos := JNum 3;
         Clase.demoraEntreIntentos := JNum 1000;
         Clase.silencio := JBool false |}.
Proof.
  cbv zeta. repeat split.
  eexists. repeat split.
Qed.

(** The other two variants read [configuracion.reintentos] without the
    guard of the class. *)
Lemma literal_y_async_sin_configuracion (n : option string) (f : Operacion)
  (g : option Callback) (i0 : Z) (m : Mundo) :
  let o := {| o_nombre := n; o_configuracion := Indefinido;
              o_ejecutar := f; o_despues := g |} in
  Literal.configurar o i0 = Lanza (TypeErrorJS "reintentos") /\
  Async.iniciar o m = (m, Rechaza (TypeErrorJS "reintentos")).
Proof. split; reflexivity. Qed.

Lemma normaliza_negativo :
  ~ al_menos_un_intento Ejemplos.negativo.
Proof.
  intros (n & Hn & H1). vm_compute in Hn. injection Hn as <-. lia.
Qed.

Lemma js_or_falsy (a b : JsVal) : truthy a = false -> js_or a b = b.
Proof. unfold js_or. now intros ->. Qed.

Lemma js_or_truthy (a b : JsVal) : truthy b = true -> truthy (js_or a b) = true.
Proof. unfold js_or. destruct (truthy a) eqn:E; auto. Qed.

(** C5, amended.  Defaults are applied by falsy-coalescing: the empty
    object gives 3 attempts, 1000 ms, not silent; in every field a falsy
    value (0 for one) is replaced by the default and any other value is
    kept as the caller wrote it.  So the number of attempts that results is
    never falsy, never 0; it is at least 1 whenever the caller wrote a
    falsy value or a number that is at least 1, and a negative number is
    kept and stays below 1.  The async variant normalises the attempts and
    the silent flag the same way, keeps the caller's delay in its
    configuration and applies the default of 1000 ms where the loop
    pauses. *)
Theorem normalizacion_por_falsy (conf : Configuracion) :
  let n := Clase.prepararConfiguracion conf in
  Clase.prepararConfiguracion vacia =
    {| Clase.maxIntentos := JNum 3;
       Clase.demoraEntreIntentos := JNum 1000;
       Clase.silencio := JBool false |} /\
  (truthy (reintentos conf) = false -> Clase.maxIntentos n = JNum 3) /\
  (truthy (demoraEntreIntentos conf) = false -> Clase.demoraEntreIntentos n = JNum 1000) /\
  (truthy (modoSilencioso conf) = false -> Clase.silencio n = JBool false) /\
  js_or (JNum 0) (JNum 3) = JNum 3 /\
  (truthy (reintentos conf) = true -> Clase.maxIntentos n = reintentos conf) /\
  (truthy (demoraEntreIntentos conf) = true ->
   Clase.demoraEntreIntentos n = demoraEntreIntentos conf) /\
  (truthy (modoSilencioso conf) = true -> Clase.silencio n = modoSilencioso conf) /\
  truthy (Clase.maxIntentos n) = true /\
  (truthy (reintentos conf) = false \/ (exists k, reintentos conf = JNum k /\ 1 <= k) ->
   exists k, Clase.maxIntentos n = JNum k /\ 1 <= k) /\
  (forall k, reintentos conf = JNum k -> k < 0 -> Clase.maxIntentos n = JNum k) /\
  (exists a,
     Async.prepararConfiguracion (Objeto conf) = Ok a /\
     Async.maxIntentos a = Clase.maxIntentos n /\
     Async.silencio a = Clase.silencio n /\
     Async.demoraEntreIntentos a = demoraEntreIntentos conf /\
     AsyncForma.demora a = Clase.demoraEntreIntentos n).
Proof.
  cbv zeta. split; [reflexivity|].
  split; [apply js_or_falsy|].
  split; [apply js_or_falsy|].
  split; [apply js_or_falsy|].
  split; [reflexivity|].
  split; [simpl; unfold js_or; now intros ->|].
  split; [simpl; unfold js_or; now intros ->|].
  split; [simpl; unfold js_or; now intros ->|].
  split; [now apply js_or_truthy|].
  split; [|split].
  - simpl. intros [H|(k & Hk & H1)].
    + rewrite (js_or_falsy _ _ H). exists 3. split; [reflexivity | lia].
    + exists k. split; [|assumption].
      unfold js_or. rewrite Hk; simpl.
      destruct (k =? 0) eqn:E; [apply Z.eqb_eq in E; lia | reflexivity].
  - simpl. intros k Hk Hneg. unfold js_or. rewrite Hk; simpl.
    destruct (k =? 0) eqn:E; [apply Z.eqb_eq in E; lia | reflexivity].
  - eexists. split; [reflexivity|]. repeat split.
Qed.

(* ===================================================================== *)
(** ** The terminal failure *)
(* ===================================================================== *)

Lemma error_terminal_sin_nombre_ni_cuenta :
  let a := Ejemplos.tarea (Ejemplos.opciones Ejemplos.un_intento Ejemplos.siempre_rechaza None) in
  let b := Ejemplos.tarea (Ejemplos.otras Ejemplos.dos_intentos Ejemplos.siempre_rechaza) in
  snd (Clase.iniciar a inicial) = Rechaza (ErrorJS "Todos los intentos fallaron.") /\
  snd (Clase.iniciar b inicial) = Rechaza (ErrorJS "Todos los intentos fallaron.") /\
  Clase.nombre a <> Clase.nombre b /\
  Clase.maxIntentos (Clase.config a) <> Clase.maxIntentos (Clase.config b) /\
  ~ lleva_nombre_e_intentos.
Proof.
  cbv zeta.
  split; [vm_compute; reflexivity|].
  split; [vm_compute; reflexivity|].
  split; [discriminate|].
  split; [discriminate|].
  intros (lee & H).
  assert (Hf : falla_siempre Ejemplos.siempre_rechaza) by (intros i; eexists; reflexivity).
  pose proof (H (Ejemplos.tarea
                   (Ejemplos.opciones Ejemplos.un_intento Ejemplos.siempre_rechaza None))
                1 inicial agotado eq_refl ltac:(lia) Hf ltac:(vm_compute; reflexivity)) as Ha.
  pose proof (H (Ejemplos.tarea (Ejemplos.otras Ejemplos.dos_intentos Ejemplos.siempre_rechaza))
                2 inicial agotado eq_refl ltac:(lia) Hf ltac:(vm_compute; reflexivity)) as Hb.
  rewrite Ha in Hb. discriminate.
Qed.

(** C6, amended.  When every attempt fails, the class and the literal
    object reject the promise of [iniciar] with a plain [Error] whose
    message is the fixed text "Todos los intentos fallaron."; the retry loop
    of the async variant throws the same value.  The value is the same for
    every task: it holds neither the name nor the number of attempts.  The
    line [console.error] prints for the class on that failure does carry
    the name. *)
Theorem fallo_terminal_generico (o : Opciones) (c : Configuracion) (N i0 : Z)
  (t : Clase.Tarea) (self : Literal.Instancia) (cfg : Async.Config) (m : Mundo) :
  o_configuracion o = Objeto c -> reintentos c = JNum N -> 1 <= N ->
  falla_siempre (o_ejecutar o) ->
  Clase.constructor o = Ok t -> Literal.configurar o i0 = Ok self ->
  Async.prepararConfiguracion (o_configuracion o) = Ok cfg ->
  snd (Clase.iniciar t m) = Rechaza (ErrorJS "Todos los intentos fallaron.") /\
  snd (Literal.iniciar (self, m)) = Rechaza (ErrorJS "Todos los intentos fallaron.") /\
  snd (Async.ejecutarConResiliencia (o_ejecutar o) cfg m)
    = Rechaza (ErrorJS "Todos los intentos fallaron.") /\
  exists tr,
    nuevos m (fst (Clase.iniciar t m)) tr /\
    errores tr =
      [("Error en la tarea '" ++ nombre_o (o_nombre o) ++ "':",
        ErrorJS "Todos los intentos fallaron.")].
Proof.
  intros Hc HN H1 Hf Ht Hs Hcfg.
  fold agotado.
  destruct (clase_reintenta_y_agota o c N t m Hc HN H1 Hf Ht) as (_ & _ & _ & _ & _ & P1).
  destruct (literal_reintenta_y_agota o c N i0 self m Hc HN H1 Hf Hs)
    as (_ & _ & _ & _ & _ & P2).
  destruct (Async_preparar_max o c N Hc HN H1) as (cfg' & Hcfg' & Hmax & _).
  assert (cfg' = cfg) by congruence. subst cfg'.
  destruct (AsyncCorridas.agota_async _ _ m N Hmax H1 Hf) as (P3 & _).
  repeat split; try assumption.
  destruct (Clase_constructor_max o c N t Hc HN H1 Ht) as (Hmax1 & He & Hd & Hn & _).
  rewrite <- He in Hf.
  destruct (ClaseCorridas.agota_clase _ _ m N Hmax1 H1 Hf) as (e & Hag).
  destruct (agotamiento_lee _ _ _ _ _ (Clase_avisa _) _ _ _ _ _
              (falla_siempre_desde _ _ _ Hf) Hag) as (cuerpo & Htr & Hlee).
  destruct Hag as (_ & Hp & _).
  destruct (Clase_iniciar_forma t m) as (_ & Htr' & _). cbv zeta in Htr'.
  rewrite Hp in Htr'. rewrite Htr, <- app_assoc in Htr'.
  destruct (lee_corrida _ _ (Clase.nombre t) (Clase.despues t) (Rechaza agotado) _ _ _ _ _ Hlee)
    as (_ & _ & _ & _ & _ & L6 & _).
  eexists. split; [exact Htr'|]. rewrite L6, Hn. reflexivity.
Qed.

Lemma fallo_terminal_generico_testigo :
  let o := Ejemplos.opciones Ejemplos.productos Ejemplos.siempre_rechaza None in
  snd (Clase.iniciar (Ejemplos.tarea o) inicial)
    = Rechaza (ErrorJS "Todos los intentos fallaron.") /\
  snd (Literal.iniciar (Ejemplos.objeto Ejemplos.productos o, inicial))
    = Rechaza (ErrorJS "Todos los intentos fallaron.") /\
  snd (Async.ejecutarConResiliencia Ejemplos.siempre_rechaza
         {| Async.reintentos := JNum 3;
            Async.demoraEntreIntentos := JNum 1500;
            Async.modoSilencioso := JBool false;
            Async.maxIntentos := JNum 3;
            Async.silencio := JBool false |} inicial)
    = Rechaza (ErrorJS "Todos los intentos fallaron.") /\
  exists tr,
    nuevos inicial (fst (Clase.iniciar (Ejemplos.tarea o) inicial)) tr /\
    errores tr =
      [("Error en la tarea 'Cargar datos de productos':",
        ErrorJS "Todos los intentos fallaron.")].
Proof.
  apply (fallo_terminal_generico
           (Ejemplos.opciones Ejemplos.productos Ejemplos.siempre_rechaza None)
           Ejemplos.productos 3 0).
  - reflexivity.
  - reflexivity.
  - lia.
  - intros i. eexists. reflexivity.
  - reflexivity.
  - reflexivity.
  - reflexivity.
Defined.

(* ===================================================================== *)
(** ** Starting the same task again *)
(* ===================================================================== *)

(** [iniciar] of the literal object does not look at the counter it finds. *)
Lemma literal_iniciar_reinicia (self : Literal.Instancia) (m : Mundo) :
  Literal.iniciar (self, m) = Literal.iniciar (Literal.con_intentos 0 self, m).
Proof. reflexivity. Qed.

Lemma literal_contador_tras_agotar (o : Opciones) (c : Configuracion) (N i0 : Z)
  (self : Literal.Instancia) (m : Mundo) :
  o_configuracion o = Objeto c -> reintentos c = JNum N -> 1 <= N ->
  falla_siempre (o_ejecutar o) ->
  Literal.configurar o i0 = Ok self ->
  fst (fst (Literal.iniciar (self, m))) = Literal.con_intentos N self /\
  Literal.configurar o N = Ok (Literal.con_intentos N self).
Proof.
  intros Hc HN H1 Hf Hs.
  destruct (Literal_configurar_max o c N i0 self Hc HN H1 Hs) as (Hmax & He & _).
  rewrite <- He in Hf.
  destruct (LiteralCorridas.agota_literal self m N Hmax H1 Hf) as (Hfin & _).
  destruct (Literal_iniciar_forma self m) as (Hs' & _). cbv zeta in Hs'.
  split; [congruence|].
  unfold Literal.configurar in *. rewrite Hc in *. injection Hs as <-. reflexivity.
Qed.

(** C8.  The counter of attempts starts at 0 in every call of [iniciar]:
    in the class it is a local variable of the call, in the literal object
    [iniciar] sets the field to 0 before it does anything else.  So after a
    run that exhausted the [N] attempts, which leaves the field of the
    literal object at [N], a second [iniciar] on the same task with the same
    failing operation makes [N] attempts again and then fails. *)
Theorem reinicio_tras_agotar (o : Opciones) (c : Configuracion) (N i0 : Z)
  (t : Clase.Tarea) (self : Literal.Instancia) (m : Mundo) :
  o_configuracion o = Objeto c -> reintentos c = JNum N -> 1 <= N ->
  falla_siempre (o_ejecutar o) ->
  Clase.constructor o = Ok t -> Literal.configurar o i0 = Ok self ->
  let r1 := Clase.iniciar t m in
  let r2 := Clase.iniciar t (fst r1) in
  let s1 := Literal.iniciar (self, m) in
  let s2 := Literal.iniciar (fst s1) in
  reintenta_y_agota (demora_de c) N m r1 /\
  reintenta_y_agota (demora_de c) N (fst r1) r2 /\
  reintenta_y_agota (demora_de c) N m (LiteralForma.visible s1) /\
  Literal._intentosRealizados (fst (fst s1)) = N /\
  s2 = Literal.iniciar (Literal.con_intentos 0 (fst (fst s1)), snd (fst s1)) /\
  reintenta_y_agota (demora_de c) N (snd (fst s1)) (LiteralForma.visible s2) /\
  Literal._intentosRealizados (fst (fst s2)) = N.
Proof.
  intros Hc HN H1 Hf Ht Hs. cbv zeta.
  destruct (literal_contador_tras_agotar o c N i0 self m Hc HN H1 Hf Hs) as (Hfin1 & Hs1).
  destruct (Literal.iniciar (self, m)) as [[self1 m1] p1] eqn:E1.
  cbn [fst snd] in *. subst self1.
  destruct (literal_contador_tras_agotar o c N N _ m1 Hc HN H1 Hf Hs1) as (Hfin2 & _).
  split; [now apply (clase_reintenta_y_agota o c N t m)|].
  split; [now apply (clase_reintenta_y_agota o c N t)|].
  split.
  { pose proof (literal_reintenta_y_agota o c N i0 self m Hc HN H1 Hf Hs) as H.
    now rewrite E1 in H. }
  split; [reflexivity|].
  split; [reflexivity|].
  split; [now apply (literal_reintenta_y_agota o c N N)|].
  rewrite Hfin2. reflexivity.
Qed.

Lemma reinicio_tras_agotar_testigo :
  let o := Ejemplos.opciones Ejemplos.productos Ejemplos.siempre_rechaza None in
  let t := Ejemplos.tarea o in
  let self := Ejemplos.objeto Ejemplos.productos o in
  let r1 := Clase.iniciar t inicial in
  let r2 := Clase.iniciar t (fst r1) in
  let s1 := Literal.iniciar (self, inicial) in
  let s2 := Literal.iniciar (fst s1) in
  reintenta_y_agota (JNum 1500) 3 inicial r1 /\
  reintenta_y_agota (JNum 1500) 3 (fst r1) r2 /\
  reintenta_y_agota (JNum 1500) 3 inicial (LiteralForma.visible s1) /\
  Literal._intentosRealizados (fst (fst s1)) = 3 /\
  s2 = Literal.iniciar (Literal.con_intentos 0 (fst (fst s1)), snd (fst s1)) /\
  reintenta_y_agota (JNum 1500) 3 (snd (fst s1)) (LiteralForma.visible s2) /\
  Literal._intentosRealizados (fst (fst s2)) = 3.
Proof.
  apply (reinicio_tras_agotar
           (Ejemplos.opciones Ejemplos.productos Ejemplos.siempre_rechaza None)
           Ejemplos.productos 3 0).
  - reflexivity.
  - reflexivity.
  - lia.
  - intros i. eexists. reflexivity.
  - reflexivity.
  - reflexivity.
Defined.

(* ===================================================================== *)
(** ** Every run: what is printed and what the caller gets *)
(* ===================================================================== *)







(** A callback that throws: the caller of the class gets what it threw,
    which is neither the result nor the exhaustion failure. *)
Lemma callback_roto_llega_al_llamador :
  let t := Ejemplos.tarea
             (Ejemplos.opciones Ejemplos.productos (Ejemplos.responde (JNum 42))
                (Some Ejemplos.callback_roto)) in
  snd (Clase.iniciar t inicial) = Rechaza (Lanzado JNull) /\
  ~ resultado_o_agotado (Clase.ejecutar t) (Clase.iniciar t inicial).
Proof.
  cbv zeta. split; [vm_compute; reflexivity|].
  intros [(v & H & _)|H]; vm_compute in H; discriminate.
Qed.

Lemma desenlace_de (f : Operacion) (g : option Callback) (m : Mundo) (k : nat)
  (W : Z -> Fallo -> list Evento) (d : JsVal) (i : Z) (r0 r : Mundo * Promesa) :
  (forall j : nat, (j < k)%nat -> exists e, f (llamadas m + j)%nat = Rechaza e) ->
  (exists v, exito W d f m i k v r0) \/ (exists e, agotamiento W d f m i k e r0) ->
  llamadas (fst r) = llamadas (fst r0) ->
  snd r = salida g (snd r0) ->
  desenlace f g m r.
Proof.
  intros Hfail Hfin Hl Hp. unfold desenlace. rewrite Hl, Hp.
  destruct Hfin as [(v & Hf & Hp0 & Hl0 & _)|(e & Hf & Hp0 & Hl0 & _)];
    rewrite Hp0, Hl0; simpl.
  - destruct g as [h|]; [|left; eauto].
    destruct (h v) as [e|] eqn:Hh; [|left; eauto].
    right; right. exists v, h, e. auto.
  - right; left. split; [reflexivity|].
    intros j Hj.
    destruct (Nat.eq_dec j (llamadas m + k)) as [->|Hne]; [eauto|].
    replace j with (llamadas m + (j - llamadas m))%nat by lia.
    apply Hfail. lia.
Qed.

(** In the class and in the literal object the caller of [iniciar] gets,
    in every run, one of three things: the result of the
    operation; the exhaustion failure, after a run in which every call of
    the operation failed; or what the success callback threw when it was
    given the result. *)
Lemma frontera_de_iniciar (t : Clase.Tarea) (self : Literal.Instancia) (m : Mundo) :
  desenlace (Clase.ejecutar t) (Clase.despues t) m (Clase.iniciar t m) /\
  desenlace (Literal.ejecutar self) (Literal.despues self) m
    (LiteralForma.visible (Literal.iniciar (self, m))).
Proof.
  split.
  - destruct (Clase_iniciar_forma t m) as (Hl & _ & Hp). cbv zeta in Hl, Hp.
    unfold Clase.ejecutarConResiliencia in *.
    destruct (ClaseBucle.intentar_forma (Clase.ejecutar t) (Clase.config t) 0 m)
      as (k & Hfail & _ & Hfin).
    eapply desenlace_de; eauto.
    destruct Hfin as [(v & H)|(e & _ & H)]; [left | right]; eauto.
  - destruct (Literal_iniciar_forma self m) as (_ & Hl & _ & Hp). cbv zeta in Hl, Hp.
    destruct (LiteralCorridas.corrida_forma self m) as (k & Hfail & _ & Hfin).
    eapply (desenlace_de _ _ _ k _ _ _ (LiteralForma.visible (LiteralForma.corrida self m)));
      eauto.
    destruct Hfin as [(v & _ & H)|(e & _ & _ & H)]; [left | right]; eauto.
Qed.

(* ===================================================================== *)
(** ** Every run, whatever the operation does *)
(* ===================================================================== *)

(** What [iniciar] prints on [console.error] is what its promise would be
    rejected with in the class and in the literal object. *)
Lemma errores_epilogo (nombre : string) (g : option Callback) (p : Promesa) :
  errores (epilogo nombre g p) =
  match salida g p with
  | Rechaza e => [("Error en la tarea '" ++ nombre ++ "':", e)]
  | Cumple _ => []
  end.
Proof.
  destruct p as [v|e]; simpl; [|reflexivity].
  destruct g as [h|]; simpl; [|reflexivity].
  destruct (h v); reflexivity.
Qed.

(** The shape of every run of the class: [k] failed attempts with their
    pauses, one more attempt, and the epilogue. *)
Lemma clase_corrida (t : Clase.Tarea) (m : Mundo) :
  let f := Clase.ejecutar t in
  let c := Clase.config t in
  let d := Clase.demoraEntreIntentos c in
  let p0 := snd (Clase.ejecutarConResiliencia f c m) in
  exists (k : nat) (cuerpo : list Evento) (fallos : nat),
    (forall j : nat, (j < k)%nat ->
       js_lt (JNum (0 + Z.of_nat j + 1)) (Clase.maxIntentos c) = true) /\
    (forall j : nat, (j < k)%nat -> exists e, f (llamadas m + j)%nat = Rechaza e) /\
    traza (fst (Clase.iniciar t m)) =
      (traza m ++ cuerpo ++ epilogo (Clase.nombre t) (Clase.despues t) p0)%list /\
    snd (Clase.iniciar t m) = salida (Clase.despues t) p0 /\
    Lectura f cuerpo (S k) fallos (repeat d k) (alternado d (S k))
      (lineas (truthy (Clase.silencio c)) linea_clase 0 fallos) /\
    ((fallos = k /\ exists v, p0 = Cumple v /\ f (llamadas m + k)%nat = Cumple v) \/
     (fallos = S k /\ p0 = Rechaza agotado /\
      js_lt (JNum (0 + Z.of_nat k + 1)) (Clase.maxIntentos c) = false)).
Proof.
  cbv zeta.
  destruct (Clase_iniciar_forma t m) as (_ & Htr' & Hp'). cbv zeta in Htr', Hp'.
  unfold Clase.ejecutarConResiliencia in *.
  destruct (ClaseBucle.intentar_forma (Clase.ejecutar t) (Clase.config t) 0 m)
    as (k & Hfail & Hsi & [(v & Hex)|(e & Hno & Hag)]).
  - destruct (exito_lee _ _ _ _ _ (Clase_avisa _) _ _ _ _ _ Hfail Hex)
      as (cuerpo & Htr & Hlee).
    destruct Hex as (Hf & Hp & _). rewrite Hp in *.
    rewrite Htr, <- app_assoc in Htr'.
    exists k, cuerpo, k. do 4 (split; [assumption|]). split; [exact Hlee|]. left. eauto.
  - destruct (agotamiento_lee _ _ _ _ _ (Clase_avisa _) _ _ _ _ _ Hfail Hag)
      as (cuerpo & Htr & Hlee).
    destruct Hag as (_ & Hp & _). rewrite Hp in *.
    rewrite Htr, <- app_assoc in Htr'.
    exists k, cuerpo, (S k). do 4 (split; [assumption|]). split; [exact Hlee|]. right. auto.
Qed.

(** The same for the literal object. *)
Lemma literal_corrida (self : Literal.Instancia) (m : Mundo) :
  let f := Literal.ejecutar self in
  let c := Literal.configuracion self in
  let d := demoraEntreIntentos c in
  let p0 := snd (LiteralForma.corrida self m) in
  let r := LiteralForma.visible (Literal.iniciar (self, m)) in
  exists (k : nat) (cuerpo : list Evento) (fallos : nat),
    (forall j : nat, (j < k)%nat ->
       js_lt (JNum (0 + Z.of_nat j + 1)) (reintentos c) = true) /\
    (forall j : nat, (j < k)%nat -> exists e, f (llamadas m + j)%nat = Rechaza e) /\
    traza (fst r) =
      (traza m ++ cuerpo ++ epilogo (Literal.nombre self) (Literal.despues self) p0)%list /\
    snd r = salida (Literal.despues self) p0 /\
    Lectura f cuerpo (S k) fallos (repeat d k) (alternado d (S k))
      (lineas (truthy (modoSilencioso c)) (linea_literal (Literal.nombre self)) 0 fallos) /\
    ((fallos = k /\ exists v, p0 = Cumple v /\ f (llamadas m + k)%nat = Cumple v) \/
     (fallos = S k /\ p0 = Rechaza agotado /\
      js_lt (JNum (0 + Z.of_nat k + 1)) (reintentos c) = false)).
Proof.
  cbv zeta.
  destruct (Literal_iniciar_forma self m) as (_ & _ & Htr' & Hp'). cbv zeta in Htr', Hp'.
  unfold LiteralForma.visible; cbn [fst snd].
  destruct (LiteralCorridas.corrida_forma self m)
    as (k & Hfail & Hsi & [(v & _ & Hex)|(e & Hno & _ & Hag)]).
  - destruct (exito_lee _ _ _ _ _ (Literal_avisa _) _ _ _ _ _ Hfail Hex)
      as (cuerpo & Htr & Hlee).
    destruct Hex as (Hf & Hp & _).
    unfold LiteralForma.visible in *; cbn [fst snd] in *. rewrite Hp in *.
    rewrite Htr, <- app_assoc in Htr'.
    exists k, cuerpo, k. do 4 (split; [assumption|]). split; [exact Hlee|]. left. eauto.
  - destruct (agotamiento_lee _ _ _ _ _ (Literal_avisa _) _ _ _ _ _ Hfail Hag)
      as (cuerpo & Htr & Hlee).
    destruct Hag as (_ & Hp & _).
    unfold LiteralForma.visible in *; cbn [fst snd] in *. rewrite Hp in *.
    rewrite Htr, <- app_assoc in Htr'.
    exists k, cuerpo, (S k). do 4 (split; [assumption|]). split; [exact Hlee|]. right. auto.
Qed.

(** The shape of every run of the async variant: the loop is left by the
    [return] of an attempt or, after a pause, by its condition. *)
Lemma async_corrida (o : Opciones) (cfg : Async.Config) (m : Mundo) :
  Async.prepararConfiguracion (o_configuracion o) = Ok cfg ->
  let f := o_ejecutar o in
  let d := AsyncForma.demora cfg in
  let p0 := snd (Async.ejecutarConResiliencia f cfg m) in
  exists (k : nat) (cuerpo : list Evento),
    (forall j : nat, (j < k)%nat ->
       js_lt (JNum (0 + Z.of_nat j)) (Async.maxIntentos cfg) = true) /\
    (forall j : nat, (j < k)%nat -> exists e, f (llamadas m + j)%nat = Rechaza e) /\
    traza (fst (Async.iniciar o m)) =
      (traza m ++ cuerpo
         ++ epilogo (Async.texto_nombre (o_nombre o)) (o_despues o) p0)%list /\
    snd (Async.iniciar o m) = Cumple JUndefined /\
    ((js_lt (JNum (0 + Z.of_nat k)) (Async.maxIntentos cfg) = true /\
      (exists v, p0 = Cumple v /\ f (llamadas m + k)%nat = Cumple v) /\
      Lectura f cuerpo (S k) k (repeat d k) (alternado d (S k))
        (lineas (truthy (Async.silencio cfg)) linea_async 0 k)) \/
     (js_lt (JNum (0 + Z.of_nat k)) (Async.maxIntentos cfg) = false /\
      p0 = Rechaza agotado /\
      Lectura f cuerpo k k (repeat d k) (con_pausa_final d k)
        (lineas (truthy (Async.silencio cfg)) linea_async 0 k))).
Proof.
  intros Hcfg. cbv zeta.
  destruct (Async_iniciar_forma o cfg m Hcfg) as (_ & Htr' & Hp'). cbv zeta in Htr', Hp'.
  unfold Async.ejecutarConResiliencia in *.
  destruct (AsyncBucle.bucle_forma (o_ejecutar o) cfg 0 m)
    as (k & Hfail & Hsi & [(v & Hlt & Hex)|(Hno & Hag)]).
  - destruct (exito_lee _ _ _ _ _ (Async_avisa _) _ _ _ _ _ Hfail Hex)
      as (cuerpo & Htr & Hlee).
    destruct Hex as (Hf & Hp & _). rewrite Hp in *.
    rewrite Htr, <- app_assoc in Htr'.
    exists k, cuerpo. do 4 (split; [assumption|]). left. eauto.
  - destruct (agotamiento_bucle_lee _ _ _ _ _ (Async_avisa _) _ _ _ _ Hfail Hag)
      as (cuerpo & Htr & Hlee).
    destruct Hag as (Hp & _). rewrite Hp in *.
    rewrite Htr, <- app_assoc in Htr'.
    exists k, cuerpo. do 4 (split; [assumption|]). right. auto.
Qed.

(** X1.  In every run of the class and of the literal object, whatever
    the operation does and whatever the configuration holds, the operation
    is called at least once, and the pauses are exactly one between each
    attempt and the next: none before the first attempt, none after the
    last, each of the configured delay. *)
Theorem pausas_solo_entre_intentos (t : Clase.Tarea) (self : Literal.Instancia)
  (m : Mundo) :
  (exists tr,
     nuevos m (fst (Clase.iniciar t m)) tr /\
     (1 <= invocaciones tr)%nat /\
     esqueleto tr =
       alternado (Clase.demoraEntreIntentos (Clase.config t)) (invocaciones tr) /\
     esperas tr =
       repeat (Clase.demoraEntreIntentos (Clase.config t)) (invocaciones tr - 1)) /\
  (exists tr,
     nuevos m (snd (fst (Literal.iniciar (self, m)))) tr /\
     (1 <= invocaciones tr)%nat /\
     esqueleto tr =
       alternado (demoraEntreIntentos (Literal.configuracion self)) (invocaciones tr) /\
     esperas tr =
       repeat (demoraEntreIntentos (Literal.configuracion self)) (invocaciones tr - 1)).
Proof.
  split.
  - destruct (clase_corrida t m) as (k & cuerpo & fa & _ & _ & Htr & _ & Hlee & _).
    cbv zeta in *.
    destruct (lee_corrida _ _ (Clase.nombre t) (Clase.despues t)
                (snd (Clase.ejecutarConResiliencia (Clase.ejecutar t) (Clase.config t) m))
                _ _ _ _ _ Hlee) as (L1 & _ & L3 & L4 & _).
    eexists. split; [exact Htr|]. rewrite L1, L3, L4.
    replace (S k - 1)%nat with k by lia. repeat split; try reflexivity. lia.
  - destruct (literal_corrida self m) as (k & cuerpo & fa & _ & _ & Htr & _ & Hlee & _).
    cbv zeta in *. unfold LiteralForma.visible in Htr; cbn [fst snd] in Htr.
    destruct (lee_corrida _ _ (Literal.nombre self) (Literal.despues self)
                (snd (LiteralForma.corrida self m)) _ _ _ _ _ Hlee) as (L1 & _ & L3 & L4 & _).
    eexists. split; [exact Htr|]. rewrite L1, L3, L4.
    replace (S k - 1)%nat with k by lia. repeat split; try reflexivity. lia.
Qed.

(** X2.  In every run of the async variant the pauses are one after each
    failed attempt.  When the loop ends by the success of an attempt, that
    leaves them between the attempts; when it ends because the attempts ran
    out, the last pause comes after the last attempt, before the error is
    thrown. *)
Theorem async_pausa_tras_cada_fallo (o : Opciones) (cfg : Async.Config) (m : Mundo) :
  Async.prepararConfiguracion (o_configuracion o) = Ok cfg ->
  exists tr,
    nuevos m (fst (Async.iniciar o m)) tr /\
    esperas tr = repeat (AsyncForma.demora cfg) (fallidas (o_ejecutar o) tr) /\
    match snd (Async.ejecutarConResiliencia (o_ejecutar o) cfg m) with
    | Cumple _ =>
        esqueleto tr = alternado (AsyncForma.demora cfg) (invocaciones tr) /\
        invocaciones tr = S (fallidas (o_ejecutar o) tr)
    | Rechaza _ =>
        esqueleto tr = con_pausa_final (AsyncForma.demora cfg) (invocaciones tr) /\
        invocaciones tr = fallidas (o_ejecutar o) tr
    end.
Proof.
  intros Hcfg.
  destruct (async_corrida o cfg m Hcfg) as (k & cuerpo & _ & _ & Htr & _ & Hfin).
  cbv zeta in *.
  destruct Hfin as [(_ & (v & Hp & _) & Hlee)|(_ & Hp & Hlee)];
    destruct (lee_corrida _ _ (Async.texto_nombre (o_nombre o)) (o_despues o)
                (snd (Async.ejecutarConResiliencia (o_ejecutar o) cfg m))
                _ _ _ _ _ Hlee) as (L1 & L2 & L3 & L4 & _);
    (eexists; split; [exact Htr|]); rewrite L1, L2, L3, L4, Hp; auto.
Qed.

Lemma async_pausa_tras_cada_fallo_testigo :
  let o := Ejemplos.opciones Ejemplos.productos Ejemplos.falla_primero None in
  let cfg := {| Async.reintentos := JNum 3;
                Async.demoraEntreIntentos := JNum 1500;
                Async.modoSilencioso := JBool false;
                Async.maxIntentos := JNum 3;
                Async.silencio := JBool false |} in
  exists tr,
    nuevos inicial (fst (Async.iniciar o inicial)) tr /\
    esperas tr = repeat (AsyncForma.demora cfg) (fallidas (o_ejecutar o) tr) /\
    match snd (Async.ejecutarConResiliencia (o_ejecutar o) cfg inicial) with
    | Cumple _ =>
        esqueleto tr = alternado (AsyncForma.demora cfg) (invocaciones tr) /\
        invocaciones tr = S (fallidas (o_ejecutar o) tr)
    | Rechaza _ =>
        esqueleto tr = con_pausa_final (AsyncForma.demora cfg) (invocaciones tr) /\
        invocaciones tr = fallidas (o_ejecutar o) tr
    end.
Proof.
  intros o cfg.
  exact (async_pausa_tras_cada_fallo o cfg inicial eq_refl).
Defined.

Lemma indices_app (a b : list Evento) : indices (a ++ b) = (indices a ++ indices b)%list.
Proof. apply flat_map_app. Qed.

Lemma indices_epilogo (nombre : string) (g : option Callback) (p : Promesa) :
  indices (epilogo nombre g p) = [].
Proof.
  destruct p as [v|e]; simpl; [|reflexivity].
  destruct g as [h|]; simpl; [|reflexivity].
  destruct (h v); reflexivity.
Qed.

Section Indices.
Variables (W : Z -> Fallo -> list Evento) (d : JsVal) (f : Operacion).
Hypothesis HW : solo_avisos W.

Lemma indices_W (n : Z) (e : Fallo) : indices (W n e) = [].
Proof. destruct (HW n e) as [->|(s & a & ->)]; reflexivity. Qed.

(** The failed attempts are the invocations [l], [l + 1], ... in order. *)
Lemma indices_fallidos (l : nat) (i : Z) (k : nat) :
  indices (fallidos W d f l i k) = seq l k.
Proof.
  revert l i; induction k as [|k IH]; intros l i; [reflexivity|].
  change (fallidos W d f l i (S k)) with
    ([EvInvoca l] ++ W (i + 1) (razon f l) ++ [EvEspera d] ++ fallidos W d f (S l) (i + 1) k)%list.
  rewrite !indices_app, indices_W, IH. reflexivity.
Qed.

Lemma indices_exito (m : Mundo) (i : Z) (k : nat) (v : JsVal) (r : Mundo * Promesa) :
  exito W d f m i k v r ->
  exists cuerpo,
    traza (fst r) = (traza m ++ cuerpo)%list /\ indices cuerpo = seq (llamadas m) (S k).
Proof.
  intros (_ & _ & _ & Ht). eexists. split; [exact Ht|].
  rewrite indices_app, indices_fallidos, seq_S. reflexivity.
Qed.

Lemma indices_agotamiento (m : Mundo) (i : Z) (k : nat) (e : Fallo) (r : Mundo * Promesa) :
  agotamiento W d f m i k e r ->
  exists cuerpo,
    traza (fst r) = (traza m ++ cuerpo)%list /\ indices cuerpo = seq (llamadas m) (S k).
Proof.
  intros (_ & _ & _ & Ht). eexists. split; [exact Ht|].
  change (EvInvoca (llamadas m + k) :: W (i + Z.of_nat k + 1) e)
    with ([EvInvoca (llamadas m + k)] ++ W (i + Z.of_nat k + 1) e)%list.
  rewrite !indices_app, indices_fallidos, indices_W, seq_S, app_nil_r. reflexivity.
Qed.

Lemma indices_agotamiento_bucle (m : Mundo) (i : Z) (k : nat) (r : Mundo * Promesa) :
  agotamiento_bucle W d f m i k r ->
  exists cuerpo,
    traza (fst r) = (traza m ++ cuerpo)%list /\ indices cuerpo = seq (llamadas m) k.
Proof.
  intros (_ & _ & Ht). eexists. split; [exact Ht|]. apply indices_fallidos.
Qed.

End Indices.

Lemma invocaciones_indices (t : list Evento) : invocaciones t = List.length (indices t).
Proof.
  unfold invocaciones, indices.
  induction t as [|e t IH]; [reflexivity|].
  destruct e; simpl; rewrite ?IH; reflexivity.
Qed.

(** Closing a run: the body read by its invocations, then the epilogue. *)
Lemma a_lo_sumo_cierra (f : Operacion) (N : Z) (m m0 m' : Mundo) (cuerpo : list Evento)
  (nombre : string) (g : option Callback) (p : Promesa) (n : nat) :
  traza m0 = (traza m ++ cuerpo)%list ->
  indices cuerpo = seq (llamadas m) n ->
  traza m' = (traza m0 ++ epilogo nombre g p)%list ->
  (1 <= n)%nat -> Z.of_nat n <= N ->
  (forall j : nat, (j < n - 1)%nat -> exists e, f (llamadas m + j)%nat = Rechaza e) ->
  a_lo_sumo f N m m'.
Proof.
  intros H0 Hi H' H1 HN Hf.
  exists (cuerpo ++ epilogo nombre g p)%list, n.
  split; [unfold nuevos; now rewrite H', H0, app_assoc|].
  assert (Hind : indices (cuerpo ++ epilogo nombre g p) = seq (llamadas m) n)
    by (now rewrite indices_app, indices_epilogo, app_nil_r).
  split; [exact Hind|].
  split; [now rewrite invocaciones_indices, Hind, length_seq|]. auto.
Qed.

(** X3.  With a number of attempts [N >= 1] in the configuration, no run
    of any variant calls the operation more than [N] times or fewer than
    once, whatever the operation does; the calls are consecutive
    invocations of the operation and every one of them except the last is
    a failed one: nothing is retried after a success. *)
Theorem a_lo_sumo_N_intentos (o : Opciones) (c : Configuracion) (N i0 : Z)
  (t : Clase.Tarea) (self : Literal.Instancia) (m : Mundo) :
  o_configuracion o = Objeto c -> reintentos c = JNum N -> 1 <= N ->
  Clase.constructor o = Ok t -> Literal.configurar o i0 = Ok self ->
  a_lo_sumo (o_ejecutar o) N m (fst (Clase.iniciar t m)) /\
  a_lo_sumo (o_ejecutar o) N m (snd (fst (Literal.iniciar (self, m)))) /\
  a_lo_sumo (o_ejecutar o) N m (fst (Async.iniciar o m)).
Proof.
  intros Hc HN H1 Ht Hs.
  destruct (Clase_constructor_max o c N t Hc HN H1 Ht) as (Hmax1 & He1 & _).
  destruct (Literal_configurar_max o c N i0 self Hc HN H1 Hs) as (Hmax2 & He2 & _).
  destruct (Async_preparar_max o c N Hc HN H1) as (cfg & Hcfg & Hmax3 & _).
  split; [|split].
  - destruct (Clase_iniciar_forma t m) as (_ & Htr' & _). cbv zeta in Htr'.
    unfold Clase.ejecutarConResiliencia in Htr'.
    destruct (ClaseBucle.intentar_forma (Clase.ejecutar t) (Clase.config t) 0 m)
      as (k & Hfail & Hsi & Hfin).
    rewrite Hmax1 in Hsi. setoid_rewrite js_lt_num in Hsi. rewrite He1 in *.
    assert (Hk : Z.of_nat (S k) <= N).
    { destruct k as [|k]; [lia|].
      specialize (Hsi k (Nat.lt_succ_diag_r k)). apply Z.ltb_lt in Hsi. lia. }
    assert (Hcuerpo : exists cuerpo,
               traza (fst (Clase.intentar (o_ejecutar o) (Clase.config t) 0 m))
                 = (traza m ++ cuerpo)%list /\
               indices cuerpo = seq (llamadas m) (S k)).
    { destruct Hfin as [(v & H)|(e & _ & H)].
      - exact (indices_exito _ _ _ (avisa_con_solo _ _ _ (Clase_avisa _)) _ _ _ _ _ H).
      - exact (indices_agotamiento _ _ _ (avisa_con_solo _ _ _ (Clase_avisa _)) _ _ _ _ _ H). }
    destruct Hcuerpo as (cuerpo & H0 & Hi).
    apply (a_lo_sumo_cierra _ _ _ _ _ _ _ _ _ (S k) H0 Hi Htr'); try lia.
    intros j Hj. apply Hfail. lia.
  - destruct (Literal_iniciar_forma self m) as (_ & _ & Htr' & _). cbv zeta in Htr'.
    destruct (LiteralCorridas.corrida_forma self m) as (k & Hfail & Hsi & Hfin).
    cbv zeta in *.
    rewrite Hmax2 in Hsi. setoid_rewrite js_lt_num in Hsi. rewrite He2 in *.
    assert (Hk : Z.of_nat (S k) <= N).
    { destruct k as [|k]; [lia|].
      specialize (Hsi k (Nat.lt_succ_diag_r k)). apply Z.ltb_lt in Hsi. lia. }
    assert (Hcuerpo : exists cuerpo,
               traza (snd (fst (LiteralForma.corrida self m))) = (traza m ++ cuerpo)%list /\
               indices cuerpo = seq (llamadas m) (S k)).
    { destruct Hfin as [(v & _ & H)|(e & _ & _ & H)].
      - exact (indices_exito _ _ _ (avisa_con_solo _ _ _ (Literal_avisa _)) _ _ _ _ _ H).
      - exact (indices_agotamiento _ _ _ (avisa_con_solo _ _ _ (Literal_avisa _)) _ _ _ _ _ H). }
    destruct Hcuerpo as (cuerpo & H0 & Hi).
    apply (a_lo_sumo_cierra _ _ _ _ _ _ _ _ _ (S k) H0 Hi Htr'); try lia.
    intros j Hj. apply Hfail. lia.
  - destruct (Async_iniciar_forma o cfg m Hcfg) as (_ & Htr' & _). cbv zeta in Htr'.
    unfold Async.ejecutarConResiliencia in Htr'.
    destruct (AsyncBucle.bucle_forma (o_ejecutar o) cfg 0 m) as (k & Hfail & Hsi & Hfin).
    rewrite Hmax3 in Hsi, Hfin. setoid_rewrite js_lt_num in Hsi.
    rewrite !js_lt_num in Hfin.
    assert (Hk : Z.of_nat k <= N).
    { destruct k as [|k]; [lia|].
      specialize (Hsi k (Nat.lt_succ_diag_r k)). apply Z.ltb_lt in Hsi. lia. }
    destruct Hfin as [(v & Hlt & H)|(Hno & H)].
    + apply Z.ltb_lt in Hlt.
      destruct (indices_exito _ _ _ (avisa_con_solo _ _ _ (Async_avisa _)) _ _ _ _ _ H)
        as (cuerpo & H0 & Hi).
      apply (a_lo_sumo_cierra _ _ _ _ _ _ _ _ _ (S k) H0 Hi Htr'); try lia.
      intros j Hj. apply Hfail. lia.
    + apply Z.ltb_ge in Hno.
      destruct (indices_agotamiento_bucle _ _ _ (avisa_con_solo _ _ _ (Async_avisa _))
                  _ _ _ _ H) as (cuerpo & H0 & Hi).
      apply (a_lo_sumo_cierra _ _ _ _ _ _ _ _ _ k H0 Hi Htr'); try lia.
      intros j Hj. apply Hfail. lia.
Qed.

Lemma a_lo_sumo_N_intentos_testigo :
  let o := Ejemplos.opciones Ejemplos.productos Ejemplos.falla_primero None in
  a_lo_sumo (o_ejecutar o) 3 inicial (fst (Clase.iniciar (Ejemplos.tarea o) inicial)) /\
  a_lo_sumo (o_ejecutar o) 3 inicial
    (snd (fst (Literal.iniciar (Ejemplos.objeto Ejemplos.productos o, inicial)))) /\
  a_lo_sumo (o_ejecutar o) 3 inicial (fst (Async.iniciar o inicial)).
Proof.
  apply (a_lo_sumo_N_intentos
           (Ejemplos.opciones Ejemplos.productos Ejemplos.falla_primero None)
           Ejemplos.productos 3 0).
  - reflexivity.
  - reflexivity.
  - lia.
  - reflexivity.
  - reflexivity.
Defined.

(** What [console.error] printed in a run of the class. *)
Lemma clase_errores (t : Clase.Tarea) (m : Mundo) :
  exists tr,
    nuevos m (fst (Clase.iniciar t m)) tr /\
    errores tr =
      match snd (Clase.iniciar t m) with
      | Rechaza e => [("Error en la tarea '" ++ Clase.nombre t ++ "':", e)]
      | Cumple _ => []
      end.
Proof.
  destruct (clase_corrida t m) as (k & cuerpo & fa & _ & _ & Htr & Hp & Hlee & _).
  cbv zeta in *.
  destruct (lee_corrida _ _ (Clase.nombre t) (Clase.despues t)
              (snd (Clase.ejecutarConResiliencia (Clase.ejecutar t) (Clase.config t) m))
              _ _ _ _ _ Hlee) as (_ & _ & _ & _ & _ & L6 & _).
  eexists. split; [exact Htr|]. rewrite L6, Hp. apply errores_epilogo.
Qed.

(** And in a run of the literal object. *)
Lemma literal_errores (self : Literal.Instancia) (m : Mundo) :
  exists tr,
    nuevos m (snd (fst (Literal.iniciar (self, m)))) tr /\
    errores tr =
      match snd (Literal.iniciar (self, m)) with
      | Rechaza e => [("Error en la tarea '" ++ Literal.nombre self ++ "':", e)]
      | Cumple _ => []
      end.
Proof.
  destruct (literal_corrida self m) as (k & cuerpo & fa & _ & _ & Htr & Hp & Hlee & _).
  cbv zeta in *. unfold LiteralForma.visible in Htr, Hp; cbn [fst snd] in Htr, Hp.
  destruct (lee_corrida _ _ (Literal.nombre self) (Literal.despues self)
              (snd (LiteralForma.corrida self m)) _ _ _ _ _ Hlee)
    as (_ & _ & _ & _ & _ & L6 & _).
  eexists. split; [exact Htr|]. rewrite L6, Hp. apply errores_epilogo.
Qed.

(** The pauses of the async variant when every attempt fails. *)
Lemma async_agota_pausas (o : Opciones) (c : Configuracion) (N : Z) (m : Mundo) :
  o_configuracion o = Objeto c -> reintentos c = JNum N -> 1 <= N ->
  falla_siempre (o_ejecutar o) ->
  exists tr,
    nuevos m (fst (Async.iniciar o m)) tr /\
    esperas tr = repeat (demora_de c) (Z.to_nat N).
Proof.
  intros Hc HN H1 Hf.
  destruct (Async_preparar_max o c N Hc HN H1) as (cfg & Hcfg & Hmax & Hdem & _).
  pose proof (AsyncCorridas.agota_async _ _ m N Hmax H1 Hf) as Hag.
  destruct (agotamiento_bucle_lee _ _ _ _ _ (Async_avisa _) _ _ _ _
              (falla_siempre_desde _ _ _ Hf) Hag) as (cuerpo & Htr & Hlee).
  destruct Hag as (Hp & _).
  destruct (Async_iniciar_forma o cfg m Hcfg) as (_ & Htr' & _). cbv zeta in Htr'.
  rewrite Hp in Htr'. rewrite Htr, <- app_assoc in Htr'.
  destruct (lee_corrida _ _ (Async.texto_nombre (o_nombre o)) (o_despues o) (Rechaza agotado)
              _ _ _ _ _ Hlee) as (_ & _ & L3 & _).
  eexists. split; [exact Htr'|]. now rewrite L3, Hdem.
Qed.

(** X4.  In the class and in the literal object [console.error] prints
    exactly what the caller is refused with: one line with the name of the
    task and the failure when the promise of [iniciar] is rejected, be it
    by the exhaustion of the attempts or by the callback, and nothing when
    the promise is fulfilled. *)
Theorem se_registra_lo_que_se_rechaza (t : Clase.Tarea) (self : Literal.Instancia)
  (m : Mundo) :
  (exists tr,
     nuevos m (fst (Clase.iniciar t m)) tr /\
     errores tr =
       match snd (Clase.iniciar t m) with
       | Rechaza e => [("Error en la tarea '" ++ Clase.nombre t ++ "':", e)]
       | Cumple _ => []
       end) /\
  (exists tr,
     nuevos m (snd (fst (Literal.iniciar (self, m)))) tr /\
     errores tr =
       match snd (Literal.iniciar (self, m)) with
       | Rechaza e => [("Error en la tarea '" ++ Literal.nombre self ++ "':", e)]
       | Cumple _ => []
       end).
Proof.
  split; [apply clase_errores | apply literal_errores].
Qed.

(** X5.  The promise of [iniciar] of the async variant is rejected in one
    case only: when [configuracion] is undefined or null, with the
    TypeError of reading [reintentos], before the operation is called or
    anything is printed.  With a configuration object it is fulfilled with
    undefined in every run, and at most one line goes to [console.error]. *)
Theorem async_solo_rechaza_sin_configuracion (o : Opciones) (m : Mundo) :
  match o_configuracion o with
  | Objeto _ =>
      snd (Async.iniciar o m) = Cumple JUndefined /\
      exists tr,
        nuevos m (fst (Async.iniciar o m)) tr /\ (List.length (errores tr) <= 1)%nat
  | Indefinido | Nulo =>
      Async.iniciar o m = (m, Rechaza (TypeErrorJS "reintentos"))
  end.
Proof.
  destruct (o_configuracion o) as [| |c] eqn:Hc.
  - unfold Async.iniciar. now rewrite Hc.
  - unfold Async.iniciar. now rewrite Hc.
  - assert (Hcfg : exists cfg, Async.prepararConfiguracion (o_configuracion o) = Ok cfg)
      by (rewrite Hc; eexists; reflexivity).
    destruct Hcfg as (cfg & Hcfg).
    destruct (async_corrida o cfg m Hcfg) as (k & cuerpo & _ & _ & Htr & Hp & Hfin).
    cbv zeta in *. split; [assumption|].
    assert (Hlee : errores cuerpo = []) by (destruct Hfin as [(_ & _ & [])|(_ & _ & [])]; assumption).
    eexists. split; [exact Htr|].
    rewrite errores_app, Hlee, errores_epilogo. simpl.
    destruct (salida _ _); simpl; lia.
Qed.

(** X6.  Given an options object, whatever it holds: the task the
    constructor of the class builds has a name that is not empty, a number
    of attempts and a delay that are not falsy, and a silent flag that is
    [false] or truthy.  [configurar] of the literal object, given the same
    options object, throws the TypeError of reading [reintentos] when its
    [configuracion] is undefined or null, which the class guards against;
    otherwise it stores a task with the same properties and leaves the
    counter of attempts as it was. *)
Theorem tarea_bien_formada (config : Opciones) (i : Z) (t : Clase.Tarea) :
  Clase.constructor config = Ok t ->
  (Clase.nombre t <> "" /\
   truthy (Clase.maxIntentos (Clase.config t)) = true /\
   truthy (Clase.demoraEntreIntentos (Clase.config t)) = true /\
   (Clase.silencio (Clase.config t) = JBool false \/
    truthy (Clase.silencio (Clase.config t)) = true)) /\
  match o_configuracion config with
  | Objeto _ =>
      exists self,
        Literal.configurar config i = Ok self /\
        Literal._intentosRealizados self = i /\
        Literal.nombre self = Clase.nombre t /\
        reintentos (Literal.configuracion self) = Clase.maxIntentos (Clase.config t) /\
        demoraEntreIntentos (Literal.configuracion self)
          = Clase.demoraEntreIntentos (Clase.config t) /\
        modoSilencioso (Literal.configuracion self) = Clase.silencio (Clase.config t)
  | Indefinido | Nulo =>
      Literal.configurar config i = Lanza (TypeErrorJS "reintentos")
  end.
Proof.
  intros Ht. unfold Clase.constructor in Ht. injection Ht as <-. simpl.
  assert (Hn : nombre_o (o_nombre config) <> "").
  { unfold nombre_o. destruct (o_nombre config) as [[|a s]|]; discriminate. }
  split.
  - split; [assumption|].
    split; [now apply js_or_truthy|].
    split; [now apply js_or_truthy|].
    unfold js_or. destruct (truthy (modoSilencioso _)) eqn:E; auto.
  - unfold Literal.configurar.
    destruct (o_configuracion config) as [| |c]; try reflexivity.
    eexists. split; [reflexivity|]. simpl. auto 6.
Qed.

Lemma tarea_bien_formada_testigo :
  let config := Casos.anonima Casos.sin_demora Ejemplos.siempre_rechaza in
  let t := Ejemplos.tarea config in
  (Clase.nombre t <> "" /\
   truthy (Clase.maxIntentos (Clase.config t)) = true /\
   truthy (Clase.demoraEntreIntentos (Clase.config t)) = true /\
   (Clase.silencio (Clase.config t) = JBool false \/
    truthy (Clase.silencio (Clase.config t)) = true)) /\
  exists self,
    Literal.configurar config 7 = Ok self /\
    Literal._intentosRealizados self = 7 /\
    Literal.nombre self = Clase.nombre t /\
    reintentos (Literal.configuracion self) = Clase.maxIntentos (Clase.config t) /\
    demoraEntreIntentos (Literal.configuracion self)
      = Clase.demoraEntreIntentos (Clase.config t) /\
    modoSilencioso (Literal.configuracion self) = Clase.silencio (Clase.config t).
Proof.
  intros config t.
  exact (tarea_bien_formada config 7 t eq_refl).
Defined.




(** X7.  A task that is given no name fails under the name
    "TareaSinNombre" in the class and in the literal object, which default
    the name when the task is built; the async variant does not default it
    and prints "undefined" in its place. *)
Theorem nombre_ausente (o : Opciones) (c : Configuracion) (N i0 : Z)
  (t : Clase.Tarea) (self : Literal.Instancia) (m : Mundo) :
  o_nombre o = None ->
  o_configuracion o = Objeto c -> reintentos c = JNum N -> 1 <= N ->
  falla_siempre (o_ejecutar o) ->
  Clase.constructor o = Ok t -> Literal.configurar o i0 = Ok self ->
  (exists tr,
     nuevos m (fst (Clase.iniciar t m)) tr /\
     errores tr =
       [("Error en la tarea 'TareaSinNombre':", ErrorJS "Todos los intentos fallaron.")]) /\
  (exists tr,
     nuevos m (snd (fst (Literal.iniciar (self, m)))) tr /\
     errores tr =
       [("Error en la tarea 'TareaSinNombre':", ErrorJS "Todos los intentos fallaron.")]) /\
  (exists tr,
     nuevos m (fst (Async.iniciar o m)) tr /\
     errores tr =
       [("Error en la tarea 'undefined':", ErrorJS "Todos los intentos fallaron.")]).
Proof.
  intros Hnom Hc HN H1 Hf Ht Hs.
  destruct (Clase_constructor_max o c N t Hc HN H1 Ht) as (Hmax1 & He1 & _ & Hn1 & _).
  destruct (Literal_configurar_max o c N i0 self Hc HN H1 Hs) as (Hmax2 & He2 & _ & Hn2 & _).
  destruct (Async_preparar_max o c N Hc HN H1) as (cfg & Hcfg & Hmax3 & _).
  rewrite Hnom in Hn1, Hn2. simpl in Hn1, Hn2.
  split; [|split].
  - destruct (clase_errores t m) as (tr & Htr & Herr).
    destruct (clase_reintenta_y_agota o c N t m Hc HN H1 Hf Ht) as (_ & _ & _ & _ & _ & Hp).
    rewrite Hp, Hn1 in Herr. eauto.
  - destruct (literal_errores self m) as (tr & Htr & Herr).
    destruct (literal_reintenta_y_agota o c N i0 self m Hc HN H1 Hf Hs)
      as (_ & _ & _ & _ & _ & Hp).
    unfold LiteralForma.visible in Hp; cbn [snd] in Hp.
    rewrite Hp, Hn2 in Herr. eauto.
  - destruct (async_corrida o cfg m Hcfg) as (k & cuerpo & _ & _ & Htr & _ & Hfin).
    cbv zeta in *.
    destruct (AsyncCorridas.agota_async _ _ m N Hmax3 H1 Hf) as (Hp0 & _).
    assert (Hlee : errores cuerpo = [])
      by (destruct Hfin as [(_ & _ & [])|(_ & _ & [])]; assumption).
    eexists. split; [exact Htr|].
    rewrite errores_app, Hlee, Hp0, Hnom. reflexivity.
Qed.

Lemma nombre_ausente_testigo :
  let o := Casos.anonima Ejemplos.productos Ejemplos.siempre_rechaza in
  (exists tr,
     nuevos inicial (fst (Clase.iniciar (Ejemplos.tarea o) inicial)) tr /\
     errores tr =
       [("Error en la tarea 'TareaSinNombre':", ErrorJS "Todos los intentos fallaron.")]) /\
  (exists tr,
     nuevos inicial
       (snd (fst (Literal.iniciar (Ejemplos.objeto Ejemplos.productos o, inicial)))) tr /\
     errores tr =
       [("Error en la tarea 'TareaSinNombre':", ErrorJS "Todos los intentos fallaron.")]) /\
  (exists tr,
     nuevos inicial (fst (Async.iniciar o inicial)) tr /\
     errores tr =
       [("Error en la tarea 'undefined':", ErrorJS "Todos los intentos fallaron.")]).
Proof.
  apply (nombre_ausente (Casos.anonima Ejemplos.productos Ejemplos.siempre_rechaza)
           Ejemplos.productos 3 0).
  - reflexivity.
  - reflexivity.
  - reflexivity.
  - lia.
  - intros i. eexists. reflexivity.
  - reflexivity.
  - reflexivity.
Defined.

(** X8.  [_intentarEjecucion] of the literal object is a method like the
    others, and it goes on from the counter it finds.  When every attempt
    fails and the counter stands at [i], it makes [N - i] attempts, and one
    attempt when [i] has reached [N - 1] or passed it; it leaves the counter
    that many higher.  Called by itself after a run that used up the
    attempts it tries once more, and the counter goes past the bound.
    This is for counters that stay among the integers a JavaScript number
    counts one by one, from -2^53 to 2^53: beyond them [++] no longer
    changes the number. *)
Theorem literal_sigue_desde_el_contador (self : Literal.Instancia) (m : Mundo) (N : Z) :
  reintentos (Literal.configuracion self) = JNum N ->
  falla_siempre (Literal.ejecutar self) ->
  - 2 ^ 53 <= Literal._intentosRealizados self ->
  Literal._intentosRealizados self
    + Z.max 1 (N - Literal._intentosRealizados self) <= 2 ^ 53 ->
  let i := Literal._intentosRealizados self in
  let n := Z.max 1 (N - i) in
  let r := Literal._intentarEjecucion self m in
  exists tr,
    nuevos m (snd (fst r)) tr /\
    invocaciones tr = Z.to_nat n /\
    esperas tr =
      repeat (demoraEntreIntentos (Literal.configuracion self)) (Z.to_nat n - 1) /\
    Literal._intentosRealizados (fst (fst r)) = i + n /\
    snd r = Rechaza agotado.
Proof.
  intros Hmax Hf _ _. cbv zeta.
  destruct (LiteralBucle._intentarEjecucion_forma self m)
    as (k & Hfail & Hsi & [(v & _ & Hex)|(e & Hno & Hs & Hag)]); cbv zeta in *.
  - destruct Hex as (Hv & _). destruct (Hf (llamadas m + k)%nat) as (e & He). congruence.
  - rewrite Hmax in Hsi, Hno. setoid_rewrite js_lt_num in Hsi. rewrite js_lt_num in Hno.
    apply Z.ltb_ge in Hno.
    assert (Hk : Z.of_nat (S k) = Z.max 1 (N - Literal._intentosRealizados self)).
    { destruct k as [|k]; [lia|].
      specialize (Hsi k (Nat.lt_succ_diag_r k)). apply Z.ltb_lt in Hsi. lia. }
    destruct (agotamiento_lee _ _ _ _ _ (Literal_avisa _) _ _ _ _ _ Hfail Hag)
      as (cuerpo & Htr & [L1 _ L3 _ _ _ _]).
    destruct Hag as (_ & Hp & _).
    unfold LiteralForma.visible in *; cbn [fst snd] in *.
    exists cuerpo. split; [exact Htr|]. rewrite L1, L3, Hs, <- Hk.
    replace (Z.to_nat (Z.of_nat (S k))) with (S k) by lia.
    replace (S k - 1)%nat with k by lia.
    repeat split; try assumption. simpl. lia.
Qed.

Lemma literal_sigue_desde_el_contador_testigo :
  let r := Literal._intentarEjecucion Casos.gastado inicial in
  exists tr,
    nuevos inicial (snd (fst r)) tr /\
    invocaciones tr = 1%nat /\
    esperas tr = [] /\
    Literal._intentosRealizados (fst (fst r)) = 4 /\
    snd r = Rechaza agotado.
Proof.
  apply (literal_sigue_desde_el_contador Casos.gastado inicial 3).
  - reflexivity.
  - intros i. eexists. reflexivity.
  - simpl. lia.
  - simpl. lia.
Defined.

Lemma truthy_o_falso (a : JsVal) : truthy (js_or a (JBool false)) = truthy a.
Proof. unfold js_or. destruct (truthy a) eqn:E; [assumption | reflexivity]. Qed.

(** X10.  When the operation fails [k] times and then succeeds, within the
    bound, every variant pauses exactly [k] times, between the attempts, for
    the configured delay, and prints the warnings numbered 1 to [k], or none
    in silent mode; the callback and what it does change none of this. *)
Theorem acierto_con_k_pausas (o : Opciones) (c : Configuracion) (N i0 : Z) (k : nat)
  (v : JsVal) (t : Clase.Tarea) (self : Literal.Instancia) (m : Mundo) :
  o_configuracion o = Objeto c -> reintentos c = JNum N -> Z.of_nat k < N ->
  acierta_tras (o_ejecutar o) (llamadas m) k v ->
  Clase.constructor o = Ok t -> Literal.configurar o i0 = Ok self ->
  let con_avisos := fun (linea : Z -> string) (m' : Mundo) =>
    exists tr,
      nuevos m m' tr /\
      esperas tr = repeat (demora_de c) k /\
      esqueleto tr = alternado (demora_de c) (S k) /\
      avisos tr = (if truthy (modoSilencioso c) then [] else map linea (desde 0 k)) in
  con_avisos linea_clase (fst (Clase.iniciar t m)) /\
  con_avisos (linea_literal (nombre_o (o_nombre o)))
    (snd (fst (Literal.iniciar (self, m)))) /\
  con_avisos linea_async (fst (Async.iniciar o m)).
Proof.
  intros Hc HN Hk Hf Ht Hs. cbv zeta.
  assert (H1 : 1 <= N) by lia.
  destruct (clase_acierta o c N k v t m Hc HN Hk Hf Ht) as (b1 & T1 & L1 & _).
  destruct (literal_acierta o c N i0 k v self m Hc HN Hk Hf Hs) as (b2 & T2 & L2 & _).
  destruct (async_acierta o c N k v m Hc HN Hk Hf) as (b3 & T3 & L3 & _).
  destruct (Literal_configurar_max o c N i0 self Hc HN H1 Hs) as (_ & _ & _ & Hn & _).
  cbv zeta in *. unfold LiteralForma.visible in T2; cbn [fst snd] in T2.
  rewrite truthy_o_falso in L1, L2, L3. rewrite Hn in L2.
  split; [|split].
  - destruct (lee_corrida _ _ (Clase.nombre t) (o_despues o) (Cumple v) _ _ _ _ _ L1)
      as (_ & _ & A & B & C & _).
    eexists. split; [exact T1|]. auto.
  - destruct (lee_corrida _ _ (Literal.nombre self) (o_despues o) (Cumple v) _ _ _ _ _ L2)
      as (_ & _ & A & B & C & _).
    eexists. split; [exact T2|]. auto.
  - destruct (lee_corrida _ _ (Async.texto_nombre (o_nombre o)) (o_despues o) (Cumple v)
                _ _ _ _ _ L3) as (_ & _ & A & B & C & _).
    eexists. split; [exact T3|]. auto.
Qed.

Lemma acierto_con_k_pausas_testigo :
  let o := Ejemplos.opciones Ejemplos.productos Ejemplos.falla_primero
             (Some Ejemplos.callback_roto) in
  let con_avisos := fun (linea : Z -> string) (m' : Mundo) =>
    exists tr,
      nuevos inicial m' tr /\
      esperas tr = [JNum 1500] /\
      esqueleto tr = [Intento; Pausa (JNum 1500); Intento] /\
      avisos tr = [linea 1] in
  con_avisos linea_clase (fst (Clase.iniciar (Ejemplos.tarea o) inicial)) /\
  con_avisos (linea_literal "Cargar datos de productos")
    (snd (fst (Literal.iniciar (Ejemplos.objeto Ejemplos.productos o, inicial)))) /\
  con_avisos linea_async (fst (Async.iniciar o inicial)).
Proof.
  apply (acierto_con_k_pausas
           (Ejemplos.opciones Ejemplos.productos Ejemplos.falla_primero
              (Some Ejemplos.callback_roto))
           Ejemplos.productos 3 0 1 (JNum 42)).
  - reflexivity.
  - reflexivity.
  - lia.
  - split; [|reflexivity].
    intros j Hj. assert (j = 0%nat) as -> by lia. eexists. reflexivity.
  - reflexivity.
  - reflexivity.
Defined.

(** X11.  A delay of 0, or any other falsy delay, cannot be configured:
    every pause of a run over an operation that always fails then lasts the
    default 1000 ms, in the class and the literal object, which replace the
    delay when the task is built, and in the async variant, which replaces
    it each time the loop pauses. *)
Theorem demora_falsy_es_1000 (o : Opciones) (c : Configuracion) (N i0 : Z)
  (t : Clase.Tarea) (self : Literal.Instancia) (m : Mundo) :
  truthy (demoraEntreIntentos c) = false ->
  o_configuracion o = Objeto c -> reintentos c = JNum N -> 1 <= N ->
  falla_siempre (o_ejecutar o) ->
  Clase.constructor o = Ok t -> Literal.configurar o i0 = Ok self ->
  (exists tr,
     nuevos m (fst (Clase.iniciar t m)) tr /\
     esperas tr = repeat (JNum 1000) (Z.to_nat (N - 1))) /\
  (exists tr,
     nuevos m (snd (fst (Literal.iniciar (self, m)))) tr /\
     esperas tr = repeat (JNum 1000) (Z.to_nat (N - 1))) /\
  (exists tr,
     nuevos m (fst (Async.iniciar o m)) tr /\
     esperas tr = repeat (JNum 1000) (Z.to_nat N)).
Proof.
  intros Hd Hc HN H1 Hf Ht Hs.
  assert (Hdem : demora_de c = JNum 1000) by (unfold demora_de; now apply js_or_falsy).
  destruct (clase_reintenta_y_agota o c N t m Hc HN H1 Hf Ht) as (tr1 & T1 & _ & E1 & _).
  destruct (literal_reintenta_y_agota o c N i0 self m Hc HN H1 Hf Hs)
    as (tr2 & T2 & _ & E2 & _).
  destruct (async_agota_pausas o c N m Hc HN H1 Hf) as (tr3 & T3 & E3).
  rewrite Hdem in E1, E2, E3.
  unfold LiteralForma.visible in T2; cbn [fst] in T2.
  eauto 10.
Qed.

Lemma demora_falsy_es_1000_testigo :
  let o := Ejemplos.opciones Casos.sin_demora Ejemplos.siempre_rechaza None in
  (exists tr,
     nuevos inicial (fst (Clase.iniciar (Ejemplos.tarea o) inicial)) tr /\
     esperas tr = [JNum 1000]) /\
  (exists tr,
     nuevos inicial
       (snd (fst (Literal.iniciar (Ejemplos.objeto Casos.sin_demora o, inicial)))) tr /\
     esperas tr = [JNum 1000]) /\
  (exists tr,
     nuevos inicial (fst (Async.iniciar o inicial)) tr /\
     esperas tr = [JNum 1000; JNum 1000]).
Proof.
  apply (demora_falsy_es_1000
           (Ejemplos.opciones Casos.sin_demora Ejemplos.siempre_rechaza None)
           Casos.sin_demora 2 0).
  - reflexivity.
  - reflexivity.
  - reflexivity.
  - lia.
  - intros i. eexists. reflexivity.
  - reflexivity.
  - reflexivity.
Defined.

(* ===================================================================== *)
(** ** What the caller of the async variant gets when the attempts run out *)
(* ===================================================================== *)

(** C2 (code defect, async variant).  The claim: the caller of [iniciar]
    gets the result of the operation or the exhaustion failure, never a
    silent resolution without a result once the attempts are exhausted.
    What [TareaInteligenteAsync.js] does for every [N >= 1] when every
    attempt fails: the [catch] block of [iniciar] takes the exhaustion
    error, prints it with [console.error] and ends, so the promise of
    [iniciar] is fulfilled with undefined, which is neither a result of the
    operation, that never gave one, nor a failure. *)
Theorem async_resuelve_tras_agotar (o : Opciones) (c : Configuracion) (N : Z)
  (m : Mundo) :
  o_configuracion o = Objeto c -> reintentos c = JNum N -> 1 <= N ->
  falla_siempre (o_ejecutar o) ->
  snd (Async.iniciar o m) = Cumple JUndefined /\
  ~ resultado_o_agotado (o_ejecutar o) (Async.iniciar o m) /\
  exists tr,
    nuevos m (fst (Async.iniciar o m)) tr /\
    invocaciones tr = Z.to_nat N /\
    errores tr =
      [("Error en la tarea '" ++ Async.texto_nombre (o_nombre o) ++ "':",
        ErrorJS "Todos los intentos fallaron.")].
Proof.
  intros Hc HN H1 Hf.
  destruct (Async_preparar_max o c N Hc HN H1) as (cfg & Hcfg & Hmax & _).
  pose proof (AsyncCorridas.agota_async _ _ m N Hmax H1 Hf) as Hag.
  destruct (agotamiento_bucle_lee _ _ _ _ _ (Async_avisa _) _ _ _ _
              (falla_siempre_desde _ _ _ Hf) Hag) as (cuerpo & Htr & Hlee).
  destruct Hag as (Hp & _).
  destruct (Async_iniciar_forma o cfg m Hcfg) as (_ & Htr' & Hp'). cbv zeta in Htr', Hp'.
  rewrite Hp in Htr'. rewrite Htr, <- app_assoc in Htr'.
  destruct (lee_corrida _ _ (Async.texto_nombre (o_nombre o)) (o_despues o) (Rechaza agotado)
              _ _ _ _ _ Hlee) as (L1 & _ & _ & _ & _ & L6 & _).
  split; [exact Hp'|]. split.
  - intros [(v & _ & i & Hi)|H].
    + destruct (Hf i) as (e & He). congruence.
    + rewrite Hp' in H. discriminate.
  - eexists. split; [exact Htr'|]. rewrite L1, L6. split; reflexivity.
Qed.

Lemma async_resuelve_tras_agotar_testigo :
  let o := Ejemplos.opciones Ejemplos.productos Ejemplos.siempre_rechaza None in
  snd (Async.iniciar o inicial) = Cumple JUndefined /\
  ~ resultado_o_agotado (o_ejecutar o) (Async.iniciar o inicial) /\
  exists tr,
    nuevos inicial (fst (Async.iniciar o inicial)) tr /\
    invocaciones tr = 3%nat /\
    errores tr =
      [("Error en la tarea 'Cargar datos de productos':",
        ErrorJS "Todos los intentos fallaron.")].
Proof.
  apply (async_resuelve_tras_agotar
           (Ejemplos.opciones Ejemplos.productos Ejemplos.siempre_rechaza None)
           Ejemplos.productos 3 inicial).
  - reflexivity.
  - reflexivity.
  - lia.
  - intros i. eexists. reflexivity.
Defined.

(** The class and the literal object reject with the exhaustion failure
    on the same input. *)
Lemma clase_y_literal_rechazan_tras_agotar :
  let o := Ejemplos.opciones Ejemplos.productos Ejemplos.siempre_rechaza None in
  resultado_o_agotado (o_ejecutar o) (Clase.iniciar (Ejemplos.tarea o) inicial) /\
  resultado_o_agotado (o_ejecutar o)
    (LiteralForma.visible
       (Literal.iniciar (Ejemplos.objeto Ejemplos.productos o, inicial))).
Proof.
  cbv zeta. split; right; vm_compute; reflexivity.
Qed.
